(** * BluetoothHealthMonitor: the BLE characteristic decoders and the vitals store

    A shallow embedding of [bluetooth_service.py].  Python integers are [Z]
    (unbounded, with [&] and [>>] as [Z.land] and [Z.shiftr], which agree
    with Python on negative operands), a [bytes] object is a list of
    [Byte.byte], an exception is a value of [result], and the dictionary
    [health_data] lives in a heap of dictionaries so that [dict.copy()] and
    item assignment can be told apart.

    Python floats are carried as exact rationals ([Q]): a [PyFloat x] stands
    for the binary64 number the interpreter would hold, and [x] is the value
    of the expression computed without rounding error.  Every statement
    below that concerns a float is a statement about that exact value. *)

From Stdlib Require Import ZArith QArith Qabs Qpower Lia Lqa List String Ascii.
From Stdlib.Strings Require Import Byte.
From stdpp Require Import gmap strings list.

Open Scope Z_scope.

(** ** Python values *)

Module Py.

(** Exceptions.  [IndexError] is what [data[i]] raises past the end of a
    [bytes] object; [DecodeError] is the error named by the decoder
    contract; [BleakError] is what a call into the BLE library may raise.
    No definition of this file constructs [DecodeError]: the source has no
    such class and never raises it. *)
Inductive exn : Set := IndexError | DecodeError | BleakError.

Inductive result (A : Type) : Type :=
| Ok (a : A)
| Raise (e : exn).
Arguments Ok {A} a.
Arguments Raise {A} e.

Definition bind {A B} (r : result A) (k : A -> result B) : result B :=
  match r with
  | Ok a => k a
  | Raise e => Raise e
  end.

Definition is_ok {A} (r : result A) : bool :=
  match r with Ok _ => true | Raise _ => false end.

(** Numbers: [int] and [float] are kept apart because [10 ** e] is an
    [int] for [e >= 0] and a [float] otherwise, and [round] and [int]
    treat the two differently. *)
Inductive num : Type :=
| PyInt (n : Z)
| PyFloat (x : Q).

(** The mathematical value of a number. *)
Definition value (v : num) : Q :=
  match v with
  | PyInt n => inject_Z n
  | PyFloat x => x
  end.

(** Truth value of an [int] in a condition. *)
Definition truthy (n : Z) : bool := negb (n =? 0).

(** [10 ** e] *)
Definition pow10 (e : Z) : num :=
  if 0 <=? e then PyInt (10 ^ e) else PyFloat (Qpower 10 e).

(** [m * v] for an [int] [m] *)
Definition mul_int (m : Z) (v : num) : num :=
  match v with
  | PyInt n => PyInt (m * n)
  | PyFloat x => PyFloat (inject_Z m * x)
  end.

(** [v * k] for an [int] literal [k] *)
Definition mul_lit (v : num) (k : Z) : num :=
  match v with
  | PyInt n => PyInt (n * k)
  | PyFloat x => PyFloat (x * inject_Z k)
  end.

(** [v / k]: true division, always a [float] *)
Definition div_lit (v : num) (k : Z) : num :=
  PyFloat (value v / inject_Z k).

(** [v + k] for an [int] literal [k] *)
Definition add_lit (v : num) (k : Z) : num :=
  match v with
  | PyInt n => PyInt (n + k)
  | PyFloat x => PyFloat (x + inject_Z k)
  end.

(** [int(v)]: truncation toward zero *)
Definition int (v : num) : Z :=
  match v with
  | PyInt n => n
  | PyFloat x => Z.quot (Qnum x) (Z.pos (Qden x))
  end.

(** Nearest integer to [x], ties to the even one. *)
Definition round_half_even (x : Q) : Z :=
  let n := Qnum x in
  let d := Z.pos (Qden x) in
  let f := n / d in
  let r := n mod d in
  if 2 * r <? d then f
  else if d <? 2 * r then f + 1
  else if Z.even f then f else f + 1.

(** [round(v, 1)]: an [int] is returned as it is, a [float] is rounded
    to one decimal place. *)
Definition round1 (v : num) : num :=
  match v with
  | PyInt n => PyInt n
  | PyFloat x => PyFloat (inject_Z (round_half_even (x * 10)) / 10)
  end.

End Py.

Import Py.

#[global] Instance result_bind : MBind result := fun _ _ k r => Py.bind r k.

(** ** Byte strings *)

Abbreviation bytes := (list byte).

Definition byte_val (b : byte) : Z := Z.of_N (Byte.to_N b).

(** [data[i]] for a literal index [i >= 0] *)
Definition getitem (data : bytes) (i : nat) : result Z :=
  match data !! i with
  | Some b => Ok (byte_val b)
  | None => Raise IndexError
  end.

(** [data[i:j]]: slicing never raises, it returns the bytes that exist. *)
Definition slice (data : bytes) (i j : nat) : bytes :=
  take (j - i) (drop i data).

(** [int.from_bytes(bs, byteorder='little')] *)
Fixpoint from_bytes_little (bs : bytes) : Z :=
  match bs with
  | [] => 0
  | b :: rest => byte_val b + 256 * from_bytes_little rest
  end.

(** [int.from_bytes(bs, byteorder='little', signed=True)]: two's complement
    on [8 * len(bs)] bits; the empty string gives 0. *)
Definition from_bytes_little_signed (bs : bytes) : Z :=
  let u := from_bytes_little bs in
  let w := 8 * Z.of_nat (length bs) in
  if (0 <? w) && (2 ^ (w - 1) <=? u) then u - 2 ^ w else u.

(** ** The characteristic decoders *)

(** [_parse_heart_rate] *)
Definition _parse_heart_rate (data : bytes) : result Z :=
  flags ← getitem data 0;
  if truthy (Z.land flags 0x01)
  then Ok (from_bytes_little (slice data 1 3))
  else getitem data 1.

(** The mantissa and exponent steps of [_parse_temperature], on [temp_int]. *)
Definition float_mantissa (temp_int : Z) : Z :=
  let mantissa := Z.land temp_int 0x00FFFFFF in
  if truthy (Z.land mantissa 0x00800000)
  then - (0x01000000 - mantissa)
  else mantissa.

Definition float_exponent (temp_int : Z) : Z :=
  let exponent := Z.shiftr temp_int 24 in
  if truthy (Z.land exponent 0x80)
  then - (0x100 - exponent)
  else exponent.

(** [_parse_temperature] *)
Definition _parse_temperature (data : bytes) : result num :=
  flags ← getitem data 0;
  let temp_bytes := slice data 1 5 in
  let temp_int := from_bytes_little_signed temp_bytes in
  let mantissa := float_mantissa temp_int in
  let exponent := float_exponent temp_int in
  let temp_celsius := mul_int mantissa (pow10 exponent) in
  if truthy (Z.land flags 0x01)
  then Ok (round1 temp_celsius)
  else
    let temp_fahrenheit := add_lit (div_lit (mul_lit temp_celsius 9) 5) 32 in
    Ok (round1 temp_fahrenheit).

(** The mantissa and exponent steps of [_parse_sfloat], on [value]. *)
Definition sfloat_mantissa (value : Z) : Z :=
  let mantissa := Z.land value 0x0FFF in
  if truthy (Z.land mantissa 0x0800)
  then - (0x1000 - mantissa)
  else mantissa.

Definition sfloat_exponent (value : Z) : Z :=
  let exponent := Z.land (Z.shiftr value 12) 0x0F in
  if truthy (Z.land exponent 0x08)
  then - (0x10 - exponent)
  else exponent.

(** [_parse_sfloat] *)
Definition _parse_sfloat (data : bytes) : num :=
  let value := from_bytes_little_signed data in
  let mantissa := sfloat_mantissa value in
  let exponent := sfloat_exponent value in
  mul_int mantissa (pow10 exponent).

(** [_parse_blood_pressure] *)
Definition _parse_blood_pressure (data : bytes) : result (Z * Z) :=
  flags ← getitem data 0;
  let systolic := _parse_sfloat (slice data 1 3) in
  let diastolic := _parse_sfloat (slice data 3 5) in
  Ok (Py.int systolic, Py.int diastolic).

(** [_parse_oxygen] *)
Definition _parse_oxygen (data : bytes) : result Z :=
  flags ← getitem data 0;
  if (1 <? length data)%nat then getitem data 1 else Ok 0.

(** ** The monitor object *)

(** Dictionaries are heap objects: a reference is a location, [dict.copy()]
    allocates, and item assignment writes through the reference.  A
    dictionary value is [None] or a number. *)
Abbreviation loc := nat.
Abbreviation pydict := (gmap string (option num)).

(** The attributes of a [BluetoothHealthMonitor].  [client] is the
    [BleakClient] named by the address it was built for, [data_callback]
    names the registered callable, [health_data] is a reference. *)
Record monitor : Type := Monitor {
  client : option string;
  device_address : option string;
  device_name : option string;
  is_connected : bool;
  data_callback : option nat;
  health_data : loc
}.

(** The heap, the monitor, and the calls made to the consumer callback so
    far (callable, reference passed), oldest first. *)
Record world : Type := World {
  heap : gmap loc pydict;
  next_loc : loc;
  self : monitor;
  calls : list (nat * loc)
}.

Definition with_heap (h : gmap loc pydict) (w : world) : world :=
  World h (next_loc w) (self w) (calls w).

Definition with_self (m : monitor) (w : world) : world :=
  World (heap w) (next_loc w) m (calls w).

(** [d.copy()] for the dictionary at [l]: a fresh object with the same
    items. *)
Definition dict_copy (l : loc) (w : world) : loc * world :=
  let d := default ∅ (heap w !! l) in
  (next_loc w,
   World (<[next_loc w := d]> (heap w)) (S (next_loc w)) (self w) (calls w)).

(** [d[k] = v] for the dictionary at [l] *)
Definition dict_setitem (l : loc) (k : string) (v : option num) (w : world)
  : world :=
  with_heap (alter (fun d : pydict => <[k := v]> d) l (heap w)) w.

(** The literal of [__init__] *)
Definition initial_health_data : pydict :=
  <["battery_level" := None]>
  (<["oxygen_saturation" := None]>
  (<["blood_pressure_diastolic" := None]>
  (<["blood_pressure_systolic" := None]>
  (<["temperature" := None]>
  (<["heart_rate" := None]> ∅))))).

(** [BluetoothHealthMonitor()] in an empty heap *)
Definition __init__ : world :=
  World (<[0%nat := initial_health_data]> ∅) 1%nat
        (Monitor None None None false None 0%nat) [].

(** [disconnect]; [link] is the outcome of [await self.client.disconnect()]
    should the call be made. *)
Definition disconnect (link : result unit) (w : world) : result unit * world :=
  if bool_decide (is_Some (client (self w))) && is_connected (self w)
  then
    match link with
    | Ok _ =>
        let m := self w in
        (Ok (),
         with_self (Monitor (client m) (device_address m) (device_name m)
                            false (data_callback m) (health_data m)) w)
    | Raise e => (Raise e, w)
    end
  else (Ok (), w).

(** [_notify_data_update]: the callback receives a copy. *)
Definition _notify_data_update (w : world) : world :=
  match data_callback (self w) with
  | Some cb =>
      let '(l, w1) := dict_copy (health_data (self w)) w in
      World (heap w1) (next_loc w1) (self w1) (calls w1 ++ [(cb, l)])
  | None => w
  end.

(** [set_data_callback] *)
Definition set_data_callback (callback : nat) (w : world) : world :=
  let m := self w in
  with_self (Monitor (client m) (device_address m) (device_name m)
                     (is_connected m) (Some callback) (health_data m)) w.

(** [get_current_data] *)
Definition get_current_data (w : world) : loc * world :=
  dict_copy (health_data (self w)) w.

(** The notification handlers registered by [_monitor_heart_rate],
    [_monitor_temperature], [_monitor_blood_pressure] and [_monitor_oxygen].
    An exception of the decoder leaves the handler before any assignment. *)
Definition heart_rate_handler (data : bytes) (w : world) : result unit * world :=
  match _parse_heart_rate data with
  | Ok heart_rate =>
      let w := dict_setitem (health_data (self w)) "heart_rate"
                            (Some (PyInt heart_rate)) w in
      (Ok (), _notify_data_update w)
  | Raise e => (Raise e, w)
  end.

Definition temperature_handler (data : bytes) (w : world) : result unit * world :=
  match _parse_temperature data with
  | Ok temperature =>
      let w := dict_setitem (health_data (self w)) "temperature"
                            (Some temperature) w in
      (Ok (), _notify_data_update w)
  | Raise e => (Raise e, w)
  end.

Definition bp_handler (data : bytes) (w : world) : result unit * world :=
  match _parse_blood_pressure data with
  | Ok (systolic, diastolic) =>
      let w := dict_setitem (health_data (self w)) "blood_pressure_systolic"
                            (Some (PyInt systolic)) w in
      let w := dict_setitem (health_data (self w)) "blood_pressure_diastolic"
                            (Some (PyInt diastolic)) w in
      (Ok (), _notify_data_update w)
  | Raise e => (Raise e, w)
  end.

Definition oxygen_handler (data : bytes) (w : world) : result unit * world :=
  match _parse_oxygen data with
  | Ok oxygen =>
      let w := dict_setitem (health_data (self w)) "oxygen_saturation"
                            (Some (PyInt oxygen)) w in
      (Ok (), _notify_data_update w)
  | Raise e => (Raise e, w)
  end.

(** [_read_battery]; [battery_data] is the outcome of the characteristic
    read.  The [except] clause swallows a failed read, and no callback is
    made. *)
Definition _read_battery (battery_data : result bytes) (w : world) : world :=
  match battery_data with
  | Ok data =>
      let battery_level := from_bytes_little data in
      dict_setitem (health_data (self w)) "battery_level"
                   (Some (PyInt battery_level)) w
  | Raise _ => w
  end.

(** What can happen to a monitor: a notification arrives for one of the
    four subscribed characteristics, the battery level is read, or the
    consumer calls the public interface. *)
Inductive event : Type :=
| HeartRate (data : bytes)
| Temperature (data : bytes)
| BloodPressure (data : bytes)
| Oxygen (data : bytes)
| Battery (battery_data : result bytes)
| SetCallback (callback : nat)
| GetCurrentData.

(** An exception raised inside a handler is reported by the BLE library
    and does not reach the monitor. *)
Definition step (w : world) (e : event) : world :=
  match e with
  | HeartRate data => snd (heart_rate_handler data w)
  | Temperature data => snd (temperature_handler data w)
  | BloodPressure data => snd (bp_handler data w)
  | Oxygen data => snd (oxygen_handler data w)
  | Battery battery_data => _read_battery battery_data w
  | SetCallback callback => set_data_callback callback w
  | GetCurrentData => snd (get_current_data w)
  end.

Definition run (evs : list event) (w : world) : world := fold_left step evs w.

(** The items of the dictionary [get_current_data()] returns in [w]. *)
Definition snapshot (w : world) : pydict :=
  let '(l, w') := get_current_data w in default ∅ (heap w' !! l).

(** The health-data reference is allocated. *)
Definition wf (w : world) : Prop := (health_data (self w) < next_loc w)%nat.

(** The value stored under key [k] of [health_data], if the dictionary
    and the key exist. *)
Definition field (k : string) (w : world) : option (option num) :=
  heap w !! health_data (self w) ≫= (fun d : pydict => d !! k).

(** The health-data reference points to a dictionary. *)
Definition allocated (w : world) : Prop :=
  is_Some (heap w !! health_data (self w)).

(** A monitor as [connect] leaves it after a successful link-up. *)
Definition connected_monitor : world :=
  with_self (Monitor (Some "C0:FF:EE:00:00:01"%string)
                     (Some "C0:FF:EE:00:00:01"%string)
                     (Some "Unknown Device"%string) true None 0%nat)
            __init__.

(** ** Device discovery *)

(** What [BleakScanner.discover] yields for one peripheral.  Names are
    strings of 8-bit characters. *)
Record BLEDevice : Type := {
  address : string;
  name : option string;
  rssi : Z
}.

(** An item of the list [scan_devices] returns: the dictionary with keys
    ['address'], ['name'] and ['rssi']. *)
Record health_device : Type := {
  hd_address : string;
  hd_name : string;
  hd_rssi : Z
}.

(** [str.lower()] on one character and on a string: the letters [A]-[Z]
    are mapped, every other character is kept. *)
Definition lower_ascii (c : ascii) : ascii :=
  let n := nat_of_ascii c in
  if (65 <=? n)%nat && (n <=? 90)%nat then ascii_of_nat (n + 32) else c.

Fixpoint lower (s : string) : string :=
  match s with
  | EmptyString => EmptyString
  | String c rest => String (lower_ascii c) (lower rest)
  end.

(** [kw in s] on strings *)
Fixpoint contains (s kw : string) : bool :=
  String.prefix kw s ||
  match s with
  | EmptyString => false
  | String _ rest => contains rest kw
  end.

Definition keywords : list string :=
  ["health"; "heart"; "fitbit"; "garmin"; "polar"; "watch"; "band"; "mi";
   "huawei"].

(** The condition of the [if] in the loop of [scan_devices]: a name that is
    neither [None] nor empty, and [any(...)] over the keywords. *)
Definition is_health_device (device : BLEDevice) : bool :=
  match name device with
  | Some n =>
      negb (String.eqb n EmptyString) &&
      existsb (fun keyword => contains (lower n) keyword) keywords
  | None => false
  end.

(** [device.name or 'Unknown'] *)
Definition name_or_unknown (n : option string) : string :=
  match n with
  | Some s => if String.eqb s EmptyString then "Unknown" else s
  | None => "Unknown"
  end.

(** [scan_devices], given the list [BleakScanner.discover] returned *)
Definition scan_devices (devices : list BLEDevice) : list health_device :=
  fold_left
    (fun health_devices device =>
       if is_health_device device
       then health_devices ++
              [ {| hd_address := address device;
                   hd_name := name_or_unknown (name device);
                   hd_rssi := rssi device |} ]
       else health_devices)
    devices [].

(** ** The formats as the documentation words them *)

(** The field of [n] bits of [v] that starts at bit [lo]. *)
Definition bit_field (v lo n : Z) : Z := (v / 2 ^ lo) mod 2 ^ n.

(** A [w]-bit field read as two's complement: subtract [2^w] when the top
    bit is set. *)
Definition twos_complement (w u : Z) : Z :=
  if Z.testbit u (w - 1) then u - 2 ^ w else u.

(** IEEE-11073 SFLOAT: 12-bit mantissa, 4-bit exponent. *)
Definition sfloat_fields (b0 b1 : byte) : Z * Z :=
  let v := from_bytes_little_signed [b0; b1] in
  (twos_complement 12 (bit_field v 0 12), twos_complement 4 (bit_field v 12 4)).

(** IEEE-11073 FLOAT: 24-bit mantissa, 8-bit exponent. *)
Definition float_fields (b1 b2 b3 b4 : byte) : Z * Z :=
  let v := from_bytes_little_signed [b1; b2; b3; b4] in
  (twos_complement 24 (bit_field v 0 24), twos_complement 8 (bit_field v 24 8)).

(** The temperature a five-byte payload stands for: the FLOAT in bytes 1-4
    is a Celsius value, kept when flags bit 0 is set and converted by
    [C * 9/5 + 32] otherwise, rounded to one decimal. *)
Definition temperature_documented (flags b1 b2 b3 b4 : byte) : num :=
  let '(mantissa, exponent) := float_fields b1 b2 b3 b4 in
  let celsius := mul_int mantissa (pow10 exponent) in
  if Z.testbit (byte_val flags) 0
  then round1 celsius
  else round1 (add_lit (div_lit (mul_lit celsius 9) 5) 32).

(** The [k]-th byte of [n], little-endian. *)
Definition nth_byte (n : Z) (k : Z) : byte :=
  default x00 (Byte.of_N (Z.to_N ((n / 256 ^ k) mod 256))).

(** The two bytes of the SFLOAT with mantissa [m] and exponent [e]. *)
Definition sfloat_encode (m e : Z) : bytes :=
  let raw := m mod 2 ^ 12 + 2 ^ 12 * (e mod 2 ^ 4) in
  [nth_byte raw 0; nth_byte raw 1].

(** The four bytes of the FLOAT with mantissa [m] and exponent [e]. *)
Definition float_encode (m e : Z) : bytes :=
  let raw := m mod 2 ^ 24 + 2 ^ 24 * (e mod 2 ^ 8) in
  [nth_byte raw 0; nth_byte raw 1; nth_byte raw 2; nth_byte raw 3].

(** Truncation of a rational toward zero. *)
Definition truncate (x : Q) : Z := Z.quot (Qnum x) (Z.pos (Qden x)).

(** [kw] occurs in [s], letter case ignored: some stretch of [s] lowers to
    [kw]. *)
Definition occurs_ignoring_case (kw s : string) : Prop :=
  exists pre mid post, s = (pre ++ mid ++ post)%string /\ lower mid = kw.

(** The name is present and carries one of the keywords. *)
Definition health_named (device : BLEDevice) : Prop :=
  exists n, name device = Some n /\
            exists kw, In kw keywords /\ occurs_ignoring_case kw n.

(** The entry reported for a device. *)
Definition entry_of (device : BLEDevice) : health_device :=
  {| hd_address := address device;
     hd_name := default "Unknown"%string (name device);
     hd_rssi := rssi device |}.

(** The value of the latest event of [evs] that [pick] accepts. *)
Fixpoint latest {A : Type} (pick : event -> option A) (evs : list event)
  : option A :=
  match evs with
  | [] => None
  | e :: rest =>
      match latest pick rest with
      | Some v => Some v
      | None => pick e
      end
  end.

(** What an event decodes to, per field of [health_data]. *)
Definition decoded_heart_rate (e : event) : option num :=
  match e with
  | HeartRate data =>
      match _parse_heart_rate data with Ok v => Some (PyInt v) | Raise _ => None end
  | _ => None
  end.

Definition decoded_temperature (e : event) : option num :=
  match e with
  | Temperature data =>
      match _parse_temperature data with Ok v => Some v | Raise _ => None end
  | _ => None
  end.

Definition decoded_systolic (e : event) : option num :=
  match e with
  | BloodPressure data =>
      match _parse_blood_pressure data with
      | Ok (s, _) => Some (PyInt s)
      | Raise _ => None
      end
  | _ => None
  end.

Definition decoded_diastolic (e : event) : option num :=
  match e with
  | BloodPressure data =>
      match _parse_blood_pressure data with
      | Ok (_, d) => Some (PyInt d)
      | Raise _ => None
      end
  | _ => None
  end.

Definition decoded_oxygen (e : event) : option num :=
  match e with
  | Oxygen data =>
      match _parse_oxygen data with Ok v => Some (PyInt v) | Raise _ => None end
  | _ => None
  end.

Definition decoded_battery (e : event) : option num :=
  match e with
  | Battery (Ok data) => Some (PyInt (from_bytes_little data))
  | _ => None
  end.

(** ** Connecting and service discovery *)

Definition HEART_RATE_SERVICE_UUID : string := "0000180d-0000-1000-8000-00805f9b34fb".
Definition HEART_RATE_MEASUREMENT_UUID : string := "00002a37-0000-1000-8000-00805f9b34fb".
Definition BATTERY_SERVICE_UUID : string := "0000180f-0000-1000-8000-00805f9b34fb".
Definition BATTERY_LEVEL_UUID : string := "00002a19-0000-1000-8000-00805f9b34fb".
Definition HEALTH_THERMOMETER_SERVICE_UUID : string := "00001809-0000-1000-8000-00805f9b34fb".
Definition TEMPERATURE_MEASUREMENT_UUID : string := "00002a1c-0000-1000-8000-00805f9b34fb".
Definition BLOOD_PRESSURE_SERVICE_UUID : string := "00001810-0000-1000-8000-00805f9b34fb".
Definition BLOOD_PRESSURE_MEASUREMENT_UUID : string := "00002a35-0000-1000-8000-00805f9b34fb".
Definition PULSE_OXIMETER_SERVICE_UUID : string := "00001822-0000-1000-8000-00805f9b34fb".
Definition PLX_CONTINUOUS_MEASUREMENT_UUID : string := "00002a5f-0000-1000-8000-00805f9b34fb".

(** One item of [self.client.services] as the monitor meets it: its uuid,
    and what the BLE library answers should the monitor call
    [start_notify] or [read_gatt_char] for the characteristic of that
    service. *)
Record gatt_service : Type := {
  uuid : string;
  notify_reply : result unit;
  read_reply : result bytes
}.

(** What the BLE library answers during one call of [connect]:
    [BleakClient(device_address)], [await self.client.connect()], the read
    of the device-name characteristic followed by [.decode('utf-8')], and
    [self.client.services]. *)
Record adapter : Type := {
  new_client : result unit;
  link_up : result unit;
  read_name : result string;
  services : result (list gatt_service)
}.

Definition set_connected (b : bool) (w : world) : world :=
  let m := self w in
  with_self (Monitor (client m) (device_address m) (device_name m) b
                     (data_callback m) (health_data m)) w.

Definition set_client (c : option string) (w : world) : world :=
  let m := self w in
  with_self (Monitor c (device_address m) (device_name m) (is_connected m)
                     (data_callback m) (health_data m)) w.

Definition set_device_address (a : option string) (w : world) : world :=
  let m := self w in
  with_self (Monitor (client m) a (device_name m) (is_connected m)
                     (data_callback m) (health_data m)) w.

Definition set_device_name (n : option string) (w : world) : world :=
  let m := self w in
  with_self (Monitor (client m) (device_address m) n (is_connected m)
                     (data_callback m) (health_data m)) w.

(** [_monitor_heart_rate], [_monitor_temperature], [_monitor_blood_pressure]
    and [_monitor_oxygen]: one [start_notify] call inside [try]; the handler
    is registered when the call returns, and a failure is printed and
    dropped.  [registered] lists the characteristics that have a handler,
    oldest first. *)
Definition _monitor_heart_rate (service : gatt_service) (registered : list string)
  : list string :=
  match notify_reply service with
  | Ok _ => registered ++ [HEART_RATE_MEASUREMENT_UUID]
  | Raise _ => registered
  end.

Definition _monitor_temperature (service : gatt_service) (registered : list string)
  : list string :=
  match notify_reply service with
  | Ok _ => registered ++ [TEMPERATURE_MEASUREMENT_UUID]
  | Raise _ => registered
  end.

Definition _monitor_blood_pressure (service : gatt_service) (registered : list string)
  : list string :=
  match notify_reply service with
  | Ok _ => registered ++ [BLOOD_PRESSURE_MEASUREMENT_UUID]
  | Raise _ => registered
  end.

Definition _monitor_oxygen (service : gatt_service) (registered : list string)
  : list string :=
  match notify_reply service with
  | Ok _ => registered ++ [PLX_CONTINUOUS_MEASUREMENT_UUID]
  | Raise _ => registered
  end.

(** The body of the loop of [start_monitoring]: the [if]/[elif] chain on
    the lowered uuid. *)
Definition monitor_service (st : world * list string) (service : gatt_service)
  : world * list string :=
  let '(w, registered) := st in
  let u := lower (uuid service) in
  if String.eqb u (lower HEART_RATE_SERVICE_UUID)
  then (w, _monitor_heart_rate service registered)
  else if String.eqb u (lower HEALTH_THERMOMETER_SERVICE_UUID)
  then (w, _monitor_temperature service registered)
  else if String.eqb u (lower BLOOD_PRESSURE_SERVICE_UUID)
  then (w, _monitor_blood_pressure service registered)
  else if String.eqb u (lower PULSE_OXIMETER_SERVICE_UUID)
  then (w, _monitor_oxygen service registered)
  else if String.eqb u (lower BATTERY_SERVICE_UUID)
  then (_read_battery (read_reply service) w, registered)
  else (w, registered).

(** [start_monitoring]: the outcome, the state, and the characteristics a
    handler was registered for. *)
Definition start_monitoring (svcs : result (list gatt_service)) (w : world)
  : result unit * world * list string :=
  if negb (bool_decide (is_Some (client (self w)))) || negb (is_connected (self w))
  then (Ok (), w, [])
  else
    match svcs with
    | Ok l =>
        let '(w', registered) := fold_left monitor_service l (w, []) in
        (Ok (), w', registered)
    | Raise e => (Raise e, w, [])
    end.

(** [connect]: the value returned, the state, and the characteristics a
    handler was registered for. *)
Definition connect (a : adapter) (address : string) (w : world)
  : bool * world * list string :=
  match new_client a with
  | Raise _ => (false, set_connected false w, [])
  | Ok _ =>
      let w := set_client (Some address) w in
      match link_up a with
      | Raise _ => (false, set_connected false w, [])
      | Ok _ =>
          let w := set_device_address (Some address) w in
          let w := set_connected true w in
          let w :=
            match read_name a with
            | Ok n => set_device_name (Some n) w
            | Raise _ => set_device_name (Some "Unknown Device"%string) w
            end in
          match start_monitoring (services a) w with
          | (Ok _, w, registered) => (true, w, registered)
          | (Raise _, w, registered) => (false, set_connected false w, registered)
          end
      end
  end.

(** The calls a program makes on a monitor, and the notifications that
    reach it in between. *)
Inductive op : Type :=
| Connect (a : adapter) (address : string)
| Disconnect (link : result unit)
| Notified (e : event).

Definition op_step (w : world) (o : op) : world :=
  match o with
  | Connect a address => snd (fst (connect a address w))
  | Disconnect link => snd (disconnect link w)
  | Notified e => step w e
  end.

Definition session (ops : list op) (w : world) : world := fold_left op_step ops w.

(** The four measurement characteristics and the service each belongs
    to. *)
Definition measurement_of : list (string * string) :=
  [(HEART_RATE_SERVICE_UUID, HEART_RATE_MEASUREMENT_UUID);
   (HEALTH_THERMOMETER_SERVICE_UUID, TEMPERATURE_MEASUREMENT_UUID);
   (BLOOD_PRESSURE_SERVICE_UUID, BLOOD_PRESSURE_MEASUREMENT_UUID);
   (PULSE_OXIMETER_SERVICE_UUID, PLX_CONTINUOUS_MEASUREMENT_UUID)].

(** The characteristic [start_monitoring] asks notifications for when it
    meets [service], if any. *)
Definition wanted (service : gatt_service) : option string :=
  snd <$> List.find (fun p => String.eqb (lower (uuid service)) (fst p))
                    measurement_of.

(** The notification events that decode. *)
Definition decodes (e : event) : bool :=
  match e with
  | HeartRate data => is_ok (_parse_heart_rate data)
  | Temperature data => is_ok (_parse_temperature data)
  | BloodPressure data => is_ok (_parse_blood_pressure data)
  | Oxygen data => is_ok (_parse_oxygen data)
  | _ => false
  end.

(** ** Readings kept by the store *)

Definition is_set_callback (e : event) : bool :=
  match e with SetCallback _ => true | _ => false end.

(** The keys of [health_data]. *)
Definition health_keys : gset string :=
  list_to_set ["heart_rate"; "temperature"; "blood_pressure_systolic";
               "blood_pressure_diastolic"; "oxygen_saturation";
               "battery_level"]%string.

(** A stored value that is [None] or an [int] between 0 and [bound]. *)
Definition unsigned_reading (bound : Z) (v : option (option num)) : Prop :=
  v = Some None \/ exists n, v = Some (Some (PyInt n)) /\ 0 <= n <= bound.

(** A stored value that is [None] or a natural number. *)
Definition natural_reading (v : option (option num)) : Prop :=
  v = Some None \/ exists n, v = Some (Some (PyInt n)) /\ 0 <= n.

(** Two stored values that are both [None], or both [int]s of magnitude
    at most [bound]. *)
Definition paired_reading (bound : Z) (v1 v2 : option (option num)) : Prop :=
  (v1 = Some None /\ v2 = Some None) \/
  exists n1 n2, v1 = Some (Some (PyInt n1)) /\ v2 = Some (Some (PyInt n2)) /\
                Z.abs n1 <= bound /\ Z.abs n2 <= bound.

(** What holds of [health_data] in every state a program can reach. *)
Definition readings_ok (w : world) : Prop :=
  wf w /\
  (exists d : pydict,
      heap w !! health_data (self w) = Some d /\ dom d = health_keys) /\
  unsigned_reading 65535 (field "heart_rate" w) /\
  unsigned_reading 255 (field "oxygen_saturation" w) /\
  natural_reading (field "battery_level" w) /\
  paired_reading 20480000000 (field "blood_pressure_systolic" w)
                 (field "blood_pressure_diastolic" w) /\
  is_Some (field "temperature" w).

(** [health_data] points to a dictionary with the six keys. *)
Definition keyed (w : world) : Prop :=
  exists d : pydict,
    heap w !! health_data (self w) = Some d /\ dom d = health_keys.

(** A peripheral that offers a heart-rate service (its uuid in capitals),
    a thermometer that refuses the subscription, a device-information
    service, and a battery at 90 percent. *)
Definition sample_adapter : adapter :=
  {| new_client := Ok ();
     link_up := Ok ();
     read_name := Ok "Polar H10"%string;
     services :=
       Ok [ {| uuid := "0000180D-0000-1000-8000-00805F9B34FB";
               notify_reply := Ok (); read_reply := Raise BleakError |};
            {| uuid := "00001809-0000-1000-8000-00805f9b34fb";
               notify_reply := Raise BleakError; read_reply := Raise BleakError |};
            {| uuid := "0000180a-0000-1000-8000-00805f9b34fb";
               notify_reply := Ok (); read_reply := Ok [] |};
            {| uuid := "0000180f-0000-1000-8000-00805f9b34fb";
               notify_reply := Raise BleakError; read_reply := Ok [x5a] |} ] |}.

(** ** Critical vitals ([app.py]) *)

(** Truth value of a dictionary value that is [None] or a number. *)
Definition truthy_value (v : option num) : bool :=
  match v with
  | None => false
  | Some (PyInt n) => negb (n =? 0)
  | Some (PyFloat x) => negb (Qeq_bool x 0)
  end.

(** [v < k] and [v > k] for a number [v] and an [int] literal [k] *)
Definition lt_lit (v : option num) (k : Z) : bool :=
  match v with
  | None => false
  | Some (PyInt n) => n <? k
  | Some (PyFloat x) => negb (Qle_bool (inject_Z k) x)
  end.

Definition gt_lit (v : option num) (k : Z) : bool :=
  match v with
  | None => false
  | Some (PyInt n) => k <? n
  | Some (PyFloat x) => negb (Qle_bool x (inject_Z k))
  end.

(** [d.get(k)] *)
Definition dict_get (d : pydict) (k : string) : option num :=
  match d !! k with
  | Some v => v
  | None => None
  end.

(** [check_critical_vitals], on a record whose vitals are [None], [int]
    or finite [float] values. *)
Definition check_critical_vitals (health_data : pydict) : bool :=
  let heart_rate := dict_get health_data "heart_rate" in
  let bp_systolic := dict_get health_data "blood_pressure_systolic" in
  let bp_diastolic := dict_get health_data "blood_pressure_diastolic" in
  let oxygen := dict_get health_data "oxygen_saturation" in
  let temp := dict_get health_data "temperature" in
  if truthy_value heart_rate && (lt_lit heart_rate 40 || gt_lit heart_rate 140)
  then true
  else if truthy_value bp_systolic && (lt_lit bp_systolic 80 || gt_lit bp_systolic 180)
  then true
  else if truthy_value bp_diastolic && (lt_lit bp_diastolic 50 || gt_lit bp_diastolic 110)
  then true
  else if truthy_value oxygen && lt_lit oxygen 90
  then true
  else if truthy_value temp && (lt_lit temp 95 || gt_lit temp 103)
  then true
  else false.

(** A vital is of no concern when it is missing, [None] or zero, or lies
    between [lo] and [hi]. *)
Definition unremarkable (v : option num) (lo hi : Q) : Prop :=
  match v with
  | None => True
  | Some n => (value n == 0 \/ (lo <= value n /\ value n <= hi))%Q
  end.

(** The same with a lower bound only. *)
Definition unremarkable_above (v : option num) (lo : Q) : Prop :=
  match v with
  | None => True
  | Some n => (value n == 0 \/ lo <= value n)%Q
  end.

(** ** Bytes and bit tests *)

Lemma byte_val_range (b : byte) : 0 <= byte_val b < 256.
Proof.
  unfold byte_val. pose proof (Byte.to_N_bounded b). lia.
Qed.

(** Masking with a single bit is the bit test. *)
Lemma truthy_land_pow2 (a n : Z) :
  0 <= n -> truthy (Z.land a (2 ^ n)) = Z.testbit a n.
Proof.
  intros Hn. unfold truthy.
  destruct (Z.testbit a n) eqn:Hbit.
  - assert (Hland : Z.land a (2 ^ n) = 2 ^ n).
    { apply Z.bits_inj'. intros k Hk.
      rewrite Z.land_spec, Z.pow2_bits_eqb by lia.
      destruct (Z.eqb_spec n k) as [->|]; [now rewrite Hbit | apply andb_false_r]. }
    rewrite Hland.
    assert (0 < 2 ^ n) by (apply Z.pow_pos_nonneg; lia).
    destruct (Z.eqb_spec (2 ^ n) 0); [lia | reflexivity].
  - assert (Hland : Z.land a (2 ^ n) = 0).
    { apply Z.bits_inj'. intros k Hk.
      rewrite Z.land_spec, Z.pow2_bits_eqb, Z.bits_0 by lia.
      destruct (Z.eqb_spec n k) as [->|]; [now rewrite Hbit | apply andb_false_r]. }
    now rewrite Hland.
Qed.

Lemma truthy_flag (a : Z) : truthy (Z.land a 0x01) = Z.testbit a 0.
Proof. exact (truthy_land_pow2 a 0 ltac:(lia)). Qed.

(** The top bit of an [n+1]-bit field is set exactly from [2^n] on. *)
Lemma testbit_top (n u : Z) :
  0 <= n -> 0 <= u < 2 ^ (n + 1) -> Z.testbit u n = (2 ^ n <=? u).
Proof.
  intros Hn Hu.
  rewrite Z.testbit_odd, Z.shiftr_div_pow2 by lia.
  assert (Hp : 0 < 2 ^ n) by (apply Z.pow_pos_nonneg; lia).
  replace (2 ^ (n + 1)) with (2 * 2 ^ n) in Hu by (rewrite Z.pow_add_r by lia; lia).
  destruct (Z.leb_spec (2 ^ n) u).
  - replace (u / 2 ^ n) with 1; [reflexivity |].
    apply Z.div_unique with (r := u - 2 ^ n); lia.
  - rewrite Z.div_small by lia. reflexivity.
Qed.

Lemma getitem_0 (b : byte) (rest : bytes) : getitem (b :: rest) 0 = Ok (byte_val b).
Proof. reflexivity. Qed.

(** ** Heart rate *)

(** C4.  With flags bit 0 clear a heart-rate payload of two or more bytes
    decodes to byte 1; with flags bit 0 set a payload of three or more
    bytes decodes to bytes 1-2 read as a 16-bit little-endian unsigned
    integer.  [00 64] gives 100 and [01 E8 00] gives 232. *)
Theorem parse_heart_rate_correct :
  (forall (flags b1 : byte) (rest : bytes),
      Z.testbit (byte_val flags) 0 = false ->
      _parse_heart_rate (flags :: b1 :: rest) = Ok (byte_val b1)) /\
  (forall (flags b1 b2 : byte) (rest : bytes),
      Z.testbit (byte_val flags) 0 = true ->
      _parse_heart_rate (flags :: b1 :: b2 :: rest)
      = Ok (byte_val b1 + 256 * byte_val b2)) /\
  _parse_heart_rate [x00; x64] = Ok 100 /\
  _parse_heart_rate [x01; xe8; x00] = Ok 232.
Proof.
  repeat split.
  - intros flags b1 rest Hbit.
    unfold _parse_heart_rate. rewrite getitem_0. cbn [mbind result_bind Py.bind].
    now rewrite truthy_flag, Hbit.
  - intros flags b1 b2 rest Hbit.
    unfold _parse_heart_rate. rewrite getitem_0. cbn [mbind result_bind Py.bind].
    rewrite truthy_flag, Hbit.
    unfold slice. simpl. f_equal. lia.
Qed.

Lemma parse_heart_rate_correct_witness :
  _parse_heart_rate [x06; x48; x10] = Ok 72 /\
  _parse_heart_rate [x01; x2c; x01; x00] = Ok 300.
Proof.
  destruct parse_heart_rate_correct as (H8 & H16 & _).
  split.
  - exact (H8 x06 x48 [x10] eq_refl).
  - exact (H16 x01 x2c x01 [x00] eq_refl).
Defined.

(** ** Oxygen saturation *)

(** C10.  A one-byte oxygen payload decodes to 0, the value a two-byte
    payload with byte 1 equal to 0 decodes to, and the handler stores it
    the same way; a payload of two or more bytes decodes to byte 1
    whatever the flags byte is. *)
Theorem parse_oxygen_short_is_zero :
  (forall flags : byte, _parse_oxygen [flags] = Ok 0) /\
  (forall flags : byte, _parse_oxygen [flags] = _parse_oxygen [flags; x00]) /\
  (forall (flags : byte) (w : world),
      oxygen_handler [flags] w = oxygen_handler [flags; x00] w) /\
  (forall (flags b1 : byte) (rest : bytes),
      _parse_oxygen (flags :: b1 :: rest) = Ok (byte_val b1)).
Proof.
  repeat split; intros; reflexivity.
Qed.

(** ** Payloads shorter than a decoder reads *)

Lemma getitem_not_decode_error (data : bytes) (i : nat) :
  getitem data i <> Raise DecodeError.
Proof. unfold getitem. destruct (data !! i); discriminate. Qed.

Lemma parse_temperature_nonempty (flags : byte) (rest : bytes) :
  is_ok (_parse_temperature (flags :: rest)) = true.
Proof.
  unfold _parse_temperature. rewrite getitem_0. cbn [mbind result_bind Py.bind].
  destruct (truthy (Z.land (byte_val flags) 1)); reflexivity.
Qed.

Lemma parse_blood_pressure_nonempty (flags : byte) (rest : bytes) :
  is_ok (_parse_blood_pressure (flags :: rest)) = true.
Proof. reflexivity. Qed.

(** The one-byte oxygen payload [00] is shorter than the two bytes the
    decoder reads, and it is decoded to 0 instead of being rejected; the
    one-byte heart-rate payload [00] fails with [IndexError]. *)
Lemma short_payload_rejected_counterexample :
  (length [x00] < 2)%nat /\
  _parse_oxygen [x00] = Ok 0 /\
  _parse_oxygen [x00] <> Raise DecodeError /\
  _parse_heart_rate [x00] = Raise IndexError /\
  _parse_heart_rate [x00] <> Raise DecodeError.
Proof. repeat split; (reflexivity || discriminate || (simpl; lia)). Qed.

(** C2, as the code has it.  No decoder ever fails with [DecodeError].  An
    empty payload makes each of the four decoders fail with [IndexError],
    and so does a one-byte heart-rate payload with flags bit 0 clear.
    Every other payload below the required length is decoded from the
    bytes that are there: heart rate with flags bit 0 set gives 0 for one
    byte and byte 1 for two bytes, temperature and blood pressure give a
    value for one to four bytes, oxygen gives 0 for one byte. *)
Theorem short_payload_behaviour :
  (forall data : bytes,
      _parse_heart_rate data <> Raise DecodeError /\
      _parse_temperature data <> Raise DecodeError /\
      _parse_blood_pressure data <> Raise DecodeError /\
      _parse_oxygen data <> Raise DecodeError) /\
  (_parse_heart_rate [] = Raise IndexError /\
   _parse_temperature [] = Raise IndexError /\
   _parse_blood_pressure [] = Raise IndexError /\
   _parse_oxygen [] = Raise IndexError) /\
  (forall flags : byte,
      Z.testbit (byte_val flags) 0 = false ->
      _parse_heart_rate [flags] = Raise IndexError) /\
  (forall flags : byte,
      Z.testbit (byte_val flags) 0 = true ->
      _parse_heart_rate [flags] = Ok 0) /\
  (forall flags b1 : byte,
      Z.testbit (byte_val flags) 0 = true ->
      _parse_heart_rate [flags; b1] = Ok (byte_val b1)) /\
  (forall data : bytes,
      (1 <= length data < 5)%nat ->
      is_ok (_parse_temperature data) = true /\
      is_ok (_parse_blood_pressure data) = true) /\
  (forall flags : byte, _parse_oxygen [flags] = Ok 0).
Proof.
  split; [| split; [| split; [| split; [| split; [| split]]]]].
  - intros data. repeat split.
    + unfold _parse_heart_rate.
      destruct data as [|flags rest]; [discriminate |].
      rewrite getitem_0. cbn [mbind result_bind Py.bind].
      destruct (truthy _); [discriminate | apply getitem_not_decode_error].
    + destruct data as [|flags rest]; [discriminate |].
      pose proof (parse_temperature_nonempty flags rest) as Hok.
      intros Heq. rewrite Heq in Hok. discriminate.
    + destruct data as [|flags rest]; discriminate.
    + unfold _parse_oxygen.
      destruct data as [|flags rest]; [discriminate |].
      rewrite getitem_0. cbn [mbind result_bind Py.bind].
      destruct (1 <? _)%nat; [apply getitem_not_decode_error | discriminate].
  - repeat split.
  - intros flags Hbit. unfold _parse_heart_rate.
    rewrite getitem_0. cbn [mbind result_bind Py.bind].
    now rewrite truthy_flag, Hbit.
  - intros flags Hbit. unfold _parse_heart_rate.
    rewrite getitem_0. cbn [mbind result_bind Py.bind].
    now rewrite truthy_flag, Hbit.
  - intros flags b1 Hbit. unfold _parse_heart_rate.
    rewrite getitem_0. cbn [mbind result_bind Py.bind].
    rewrite truthy_flag, Hbit. unfold slice. simpl. f_equal. lia.
  - intros [|flags rest] Hlen; [simpl in Hlen; lia |].
    split; [apply parse_temperature_nonempty | apply parse_blood_pressure_nonempty].
  - reflexivity.
Qed.

Lemma short_payload_behaviour_witness :
  _parse_heart_rate [x00] = Raise IndexError /\
  _parse_heart_rate [x01] = Ok 0 /\
  _parse_heart_rate [x01; x48] = Ok 72 /\
  is_ok (_parse_temperature [x00; x6d; x01]) = true /\
  is_ok (_parse_blood_pressure [x00; x78; x00]) = true.
Proof.
  destruct short_payload_behaviour as (_ & _ & H1 & H2 & H3 & H4 & _).
  split; [exact (H1 x00 eq_refl) |].
  split; [exact (H2 x01 eq_refl) |].
  split; [exact (H3 x01 x48 eq_refl) |].
  apply (H4 [x00; x6d; x01]). simpl. lia.
Defined.

(** ** Disconnecting *)



(** ** Bit fields and two's complement *)

Lemma bit_field_range (v lo n : Z) : 0 <= n -> 0 <= bit_field v lo n < 2 ^ n.
Proof.
  intros Hn. unfold bit_field. apply Z.mod_pos_bound, Z.pow_pos_nonneg; lia.
Qed.

Lemma land_ones_bit_field (v n : Z) :
  0 <= n -> Z.land v (Z.ones n) = bit_field v 0 n.
Proof.
  intros Hn. unfold bit_field.
  now rewrite Z.land_ones, Z.pow_0_r, Z.div_1_r.
Qed.

Lemma shiftr_land_ones_bit_field (v lo n : Z) :
  0 <= lo -> 0 <= n -> Z.land (Z.shiftr v lo) (Z.ones n) = bit_field v lo n.
Proof.
  intros Hlo Hn. unfold bit_field.
  now rewrite Z.land_ones, Z.shiftr_div_pow2.
Qed.

(** The sign correction of the source, on any field width. *)
Lemma sign_correction (n u : Z) :
  0 <= n ->
  (if truthy (Z.land u (2 ^ n)) then - (2 ^ (n + 1) - u) else u)
  = twos_complement (n + 1) u.
Proof.
  intros Hn. unfold twos_complement.
  rewrite truthy_land_pow2 by lia.
  replace (n + 1 - 1) with n by lia.
  destruct (Z.testbit u n); lia.
Qed.

Lemma twos_complement_range (n u : Z) :
  0 <= n -> 0 <= u < 2 ^ (n + 1) ->
  - 2 ^ n <= twos_complement (n + 1) u < 2 ^ n.
Proof.
  intros Hn Hu. unfold twos_complement.
  replace (n + 1 - 1) with n by lia.
  rewrite testbit_top by lia.
  assert (Hpow : 2 ^ (n + 1) = 2 * 2 ^ n) by (rewrite Z.pow_add_r by lia; lia).
  destruct (Z.leb_spec (2 ^ n) u); lia.
Qed.

(** Reading back the field a signed number was stored in. *)
Lemma twos_complement_mod (n m : Z) :
  0 <= n -> - 2 ^ n <= m < 2 ^ n ->
  twos_complement (n + 1) (m mod 2 ^ (n + 1)) = m.
Proof.
  intros Hn Hm. unfold twos_complement.
  replace (n + 1 - 1) with n by lia.
  assert (Hpow : 2 ^ (n + 1) = 2 * 2 ^ n) by (rewrite Z.pow_add_r by lia; lia).
  assert (Hpos : 0 < 2 ^ n) by (apply Z.pow_pos_nonneg; lia).
  rewrite testbit_top by (try lia; apply Z.mod_pos_bound; lia).
  destruct (Z.neg_nonneg_cases m) as [Hneg | Hnn].
  - assert (Hmod : m mod 2 ^ (n + 1) = m + 2 ^ (n + 1)).
    { symmetry. apply Z.mod_unique with (q := -1); lia. }
    rewrite Hmod. destruct (Z.leb_spec (2 ^ n) (m + 2 ^ (n + 1))); lia.
  - rewrite Z.mod_small by lia.
    destruct (Z.leb_spec (2 ^ n) m); lia.
Qed.

(** ** SFLOAT *)

Lemma sfloat_mantissa_spec (v : Z) :
  sfloat_mantissa v = twos_complement 12 (bit_field v 0 12).
Proof.
  unfold sfloat_mantissa.
  change 0x0FFF with (Z.ones 12). rewrite land_ones_bit_field by lia.
  exact (sign_correction 11 (bit_field v 0 12) ltac:(lia)).
Qed.

Lemma sfloat_exponent_spec (v : Z) :
  sfloat_exponent v = twos_complement 4 (bit_field v 12 4).
Proof.
  unfold sfloat_exponent.
  change 0x0F with (Z.ones 4). rewrite shiftr_land_ones_bit_field by lia.
  exact (sign_correction 3 (bit_field v 12 4) ltac:(lia)).
Qed.

Lemma sfloat_mantissa_range (v : Z) : -2048 <= sfloat_mantissa v <= 2047.
Proof.
  rewrite sfloat_mantissa_spec.
  pose proof (twos_complement_range 11 (bit_field v 0 12) ltac:(lia)
                (bit_field_range v 0 12 ltac:(lia))).
  change (11 + 1) with 12 in *. change (2 ^ 11) with 2048 in *. lia.
Qed.

Lemma sfloat_exponent_range (v : Z) : -8 <= sfloat_exponent v <= 7.
Proof.
  rewrite sfloat_exponent_spec.
  pose proof (twos_complement_range 3 (bit_field v 12 4) ltac:(lia)
                (bit_field_range v 12 4 ltac:(lia))).
  change (3 + 1) with 4 in *. change (2 ^ 3) with 8 in *. lia.
Qed.

(** The number [m * 10 ** e] denotes. *)
Lemma value_mul_pow10 (m e : Z) :
  (value (mul_int m (pow10 e)) == inject_Z m * Qpower 10 e)%Q.
Proof.
  unfold pow10. destruct (Z.leb_spec 0 e).
  - cbn [mul_int value]. rewrite inject_Z_mult.
    now rewrite (Zpower_Qpower 10 e).
  - reflexivity.
Qed.

Lemma int_is_truncate (v : num) : Py.int v = truncate (value v).
Proof.
  destruct v as [n | x]; [| reflexivity].
  unfold truncate. cbn. now rewrite Z.quot_1_r.
Qed.

Lemma byte_val_nth_byte (n k : Z) :
  byte_val (nth_byte n k) = (n / 256 ^ k) mod 256.
Proof.
  unfold nth_byte, byte_val.
  assert (Hr : 0 <= (n / 256 ^ k) mod 256 < 256) by (apply Z.mod_pos_bound; lia).
  destruct (Byte.of_N (Z.to_N ((n / 256 ^ k) mod 256))) as [b|] eqn:Hb.
  - apply Byte.to_of_N in Hb. change (default x00 (Some b)) with b. rewrite Hb. lia.
  - apply Byte.of_N_None_iff in Hb. lia.
Qed.

(** A signed read of two bytes differs from the 16 bits by a multiple of
    [2^16], which neither field sees. *)
Lemma sfloat_fields_encode (m e : Z) :
  let v := from_bytes_little_signed (sfloat_encode m e) in
  bit_field v 0 12 = m mod 2 ^ 12 /\ bit_field v 12 4 = e mod 2 ^ 4.
Proof.
  unfold sfloat_encode, from_bytes_little_signed, bit_field.
  cbn [from_bytes_little length]. rewrite !byte_val_nth_byte.
  change (8 * Z.of_nat 2) with 16.
  change (2 ^ 12) with 4096. change (2 ^ 4) with 16. change (2 ^ 0) with 1.
  change (2 ^ 16) with 65536. change (2 ^ (16 - 1)) with 32768.
  change (256 ^ 0) with 1. change (256 ^ 1) with 256.
  set (raw := m mod 4096 + 4096 * (e mod 16)).
  assert (Hm : 0 <= m mod 4096 < 4096) by (apply Z.mod_pos_bound; lia).
  assert (He : 0 <= e mod 16 < 16) by (apply Z.mod_pos_bound; lia).
  assert (Hraw : raw / 1 mod 256 + 256 * ((raw / 256) mod 256 + 256 * 0) = raw).
  { subst raw. Z.div_mod_to_equations. lia. }
  rewrite Hraw. cbn zeta.
  destruct ((0 <? 16) && (32768 <=? raw)); subst raw;
    Z.div_mod_to_equations; lia.
Qed.

Lemma parse_sfloat_fields (b0 b1 : byte) :
  _parse_sfloat [b0; b1]
  = mul_int (fst (sfloat_fields b0 b1)) (pow10 (snd (sfloat_fields b0 b1))).
Proof.
  unfold _parse_sfloat, sfloat_fields. cbn [fst snd].
  now rewrite sfloat_mantissa_spec, sfloat_exponent_spec.
Qed.

Lemma parse_sfloat_encode (m e : Z) :
  - 2 ^ 11 <= m < 2 ^ 11 -> - 2 ^ 3 <= e < 2 ^ 3 ->
  _parse_sfloat (sfloat_encode m e) = mul_int m (pow10 e).
Proof.
  intros Hm He. unfold _parse_sfloat.
  rewrite sfloat_mantissa_spec, sfloat_exponent_spec.
  destruct (sfloat_fields_encode m e) as [-> ->].
  pose proof (twos_complement_mod 11 m ltac:(lia) Hm) as Hrm.
  pose proof (twos_complement_mod 3 e ltac:(lia) He) as Hre.
  change (11 + 1) with 12 in Hrm. change (3 + 1) with 4 in Hre.
  now rewrite Hrm, Hre.
Qed.



(** The largest magnitude [m * 10 ** e] reaches on the SFLOAT ranges. *)
Lemma sfloat_magnitude (m e : Z) :
  -2048 <= m <= 2047 -> -8 <= e <= 7 ->
  (Qabs (value (mul_int m (pow10 e))) <= inject_Z (2048 * 10 ^ 7))%Q.
Proof.
  intros Hm He.
  assert (Hcases : e = -8 \/ e = -7 \/ e = -6 \/ e = -5 \/ e = -4 \/ e = -3 \/
                   e = -2 \/ e = -1 \/ e = 0 \/ e = 1 \/ e = 2 \/ e = 3 \/
                   e = 4 \/ e = 5 \/ e = 6 \/ e = 7) by lia.
  repeat (destruct Hcases as [-> | Hcases]); [.. | subst e];
    match goal with
    | |- context [pow10 ?k] =>
        let p := eval vm_compute in (pow10 k) in change (pow10 k) with p
    end;
    unfold Qle, Qabs, mul_int, value, Qmult, inject_Z; cbn [Qnum Qden];
    lia.
Qed.



(** ** Temperature *)

Lemma float_mantissa_spec (v : Z) :
  float_mantissa v = twos_complement 24 (bit_field v 0 24).
Proof.
  unfold float_mantissa.
  change 0x00FFFFFF with (Z.ones 24). rewrite land_ones_bit_field by lia.
  exact (sign_correction 23 (bit_field v 0 24) ltac:(lia)).
Qed.

(** The signed read of four bytes, shifted right by 24, is already the
    signed value of the last byte. *)
Lemma shiftr_signed_high_byte (b1 b2 b3 b4 : byte) :
  Z.shiftr (from_bytes_little_signed [b1; b2; b3; b4]) 24
  = if byte_val b4 <? 128 then byte_val b4 else byte_val b4 - 256.
Proof.
  rewrite Z.shiftr_div_pow2 by lia.
  unfold from_bytes_little_signed. cbn [from_bytes_little length].
  change (8 * Z.of_nat 4) with 32.
  change (2 ^ 32) with 4294967296. change (2 ^ (32 - 1)) with 2147483648.
  change (2 ^ 24) with 16777216. cbn [Z.ltb Z.compare andb].
  pose proof (byte_val_range b1). pose proof (byte_val_range b2).
  pose proof (byte_val_range b3). pose proof (byte_val_range b4).
  destruct (Z.leb_spec 2147483648
              (byte_val b1 + 256 * (byte_val b2 + 256 *
                 (byte_val b3 + 256 * (byte_val b4 + 256 * 0)))));
    destruct (Z.ltb_spec (byte_val b4) 128);
    Z.div_mod_to_equations; lia.
Qed.

Lemma truthy_bit7 (a : Z) : truthy (Z.land a 0x80) = Z.testbit a 7.
Proof. exact (truthy_land_pow2 a 7 ltac:(lia)). Qed.

(** Bit 7 of a signed byte value is its sign. *)
Lemma testbit_7_signed (e : Z) :
  -128 <= e < 128 -> Z.testbit e 7 = (e <? 0).
Proof.
  intros He.
  rewrite <- (Z.mod_pow2_bits_low e 8 7) by lia.
  rewrite (testbit_top 7) by (try lia; apply Z.mod_pos_bound; lia).
  change (2 ^ 8) with 256. change (2 ^ 7) with 128.
  destruct (Z.ltb_spec e 0).
  - replace (e mod 256) with (e + 256)
      by (apply Z.mod_unique with (q := -1); lia).
    destruct (Z.leb_spec 128 (e + 256)); [reflexivity | lia].
  - rewrite Z.mod_small by lia.
    destruct (Z.leb_spec 128 e); [lia | reflexivity].
Qed.

(** What the exponent step of [_parse_temperature] computes from the last
    byte: the sign is corrected once by the signed read and once more by
    the test of bit 7. *)
Lemma float_exponent_high_byte (b1 b2 b3 b4 : byte) :
  float_exponent (from_bytes_little_signed [b1; b2; b3; b4])
  = if byte_val b4 <? 128 then byte_val b4 else byte_val b4 - 512.
Proof.
  unfold float_exponent. rewrite shiftr_signed_high_byte.
  rewrite truthy_bit7.
  pose proof (byte_val_range b4).
  destruct (Z.ltb_spec (byte_val b4) 128).
  - rewrite testbit_7_signed by lia.
    destruct (Z.ltb_spec (byte_val b4) 0); [lia | reflexivity].
  - rewrite testbit_7_signed by lia.
    destruct (Z.ltb_spec (byte_val b4 - 256) 0); lia.
Qed.

(** The exponent of the FLOAT format, from the last byte. *)
Lemma float_fields_exponent (b1 b2 b3 b4 : byte) :
  snd (float_fields b1 b2 b3 b4)
  = if byte_val b4 <? 128 then byte_val b4 else byte_val b4 - 256.
Proof.
  unfold float_fields. cbn [snd].
  assert (Hf : bit_field (from_bytes_little_signed [b1; b2; b3; b4]) 24 8
               = byte_val b4).
  { unfold bit_field. rewrite <- Z.shiftr_div_pow2 by lia.
    rewrite shiftr_signed_high_byte. change (2 ^ 8) with 256.
    pose proof (byte_val_range b4).
    destruct (Z.ltb_spec (byte_val b4) 128).
    - apply Z.mod_small. lia.
    - symmetry. apply Z.mod_unique with (q := -1); lia. }
  rewrite Hf. unfold twos_complement.
  pose proof (byte_val_range b4).
  rewrite (testbit_top 7) by (change (2 ^ (7 + 1)) with 256; lia).
  change (2 ^ 7) with 128. change (2 ^ 8) with 256.
  destruct (Z.leb_spec 128 (byte_val b4));
    destruct (Z.ltb_spec (byte_val b4) 128); lia.
Qed.

(** With a non-negative exponent byte the decoder follows the format. *)
Lemma parse_temperature_nonnegative_exponent
      (flags b1 b2 b3 b4 : byte) (rest : bytes) :
  byte_val b4 < 128 ->
  _parse_temperature (flags :: b1 :: b2 :: b3 :: b4 :: rest)
  = Ok (temperature_documented flags b1 b2 b3 b4).
Proof.
  intros Hb4.
  unfold _parse_temperature, temperature_documented.
  rewrite getitem_0. cbn [mbind result_bind Py.bind].
  change (slice (flags :: b1 :: b2 :: b3 :: b4 :: rest) 1 5) with [b1; b2; b3; b4].
  rewrite truthy_flag.
  pose proof (float_fields_exponent b1 b2 b3 b4) as Hexp.
  destruct (float_fields b1 b2 b3 b4) as [m e] eqn:Hfields.
  cbn [snd] in Hexp.
  assert (Hm : float_mantissa (from_bytes_little_signed [b1; b2; b3; b4]) = m).
  { rewrite float_mantissa_spec. unfold float_fields in Hfields. congruence. }
  rewrite Hm, float_exponent_high_byte, Hexp.
  destruct (Z.ltb_spec (byte_val b4) 128); [| lia].
  destruct (Z.testbit (byte_val flags) 0); reflexivity.
Qed.

(** With the exponent byte at [0x80] or above the decoder uses an exponent
    256 below the one the bytes encode. *)
Lemma parse_temperature_exponent_offset (b1 b2 b3 b4 : byte) :
  128 <= byte_val b4 ->
  float_exponent (from_bytes_little_signed [b1; b2; b3; b4])
  = snd (float_fields b1 b2 b3 b4) - 256.
Proof.
  intros Hb4. rewrite float_exponent_high_byte, float_fields_exponent.
  destruct (Z.ltb_spec (byte_val b4) 128); lia.
Qed.

(** C1, at the payload [00 6D 01 00 FF]: the FLOAT bytes encode mantissa
    365 and exponent -1, that is 36.5 degrees Celsius or 97.7 degrees
    Fahrenheit.  [_parse_temperature] takes the exponent to be -257 and
    returns 32.0. *)
Theorem parse_temperature_negative_exponent :
  float_encode 365 (-1) = [x6d; x01; x00; xff] /\
  float_fields x6d x01 x00 xff = (365, -1) /\
  float_mantissa (from_bytes_little_signed [x6d; x01; x00; xff]) = 365 /\
  float_exponent (from_bytes_little_signed [x6d; x01; x00; xff]) = -257 /\
  (exists x : Q,
      _parse_temperature [x00; x6d; x01; x00; xff] = Ok (PyFloat x) /\
      (x == 32)%Q) /\
  (exists y : Q,
      temperature_documented x00 x6d x01 x00 xff = PyFloat y /\
      (y == 977 # 10)%Q).
Proof.
  repeat split; try reflexivity.
  - eexists. split; [vm_compute; reflexivity | reflexivity].
  - eexists. split; [vm_compute; reflexivity | reflexivity].
Qed.

(** ** The vitals store *)

Section Store.

Implicit Types (w : world) (l : loc) (k : string) (e : event).

Lemma setitem_self l k v w : self (dict_setitem l k v w) = self w.
Proof. reflexivity. Qed.

Lemma setitem_next l k v w : next_loc (dict_setitem l k v w) = next_loc w.
Proof. reflexivity. Qed.

Lemma setitem_heap_ne l l' k v w :
  l <> l' -> heap (dict_setitem l k v w) !! l' = heap w !! l'.
Proof. intros Hne. cbn. now rewrite lookup_alter_ne. Qed.

Lemma setitem_heap_eq l k v w :
  heap (dict_setitem l k v w) !! l
  = (fun d : pydict => <[k := v]> d) <$> heap w !! l.
Proof. cbn. now rewrite lookup_alter_eq. Qed.

Lemma copy_heap_old l l' w :
  (l' < next_loc w)%nat -> heap (snd (dict_copy l w)) !! l' = heap w !! l'.
Proof. intros Hlt. cbn. rewrite lookup_insert_ne; [reflexivity | lia]. Qed.

Lemma notify_self w : self (_notify_data_update w) = self w.
Proof. unfold _notify_data_update. now destruct (data_callback (self w)). Qed.

Lemma notify_next w : (next_loc w <= next_loc (_notify_data_update w))%nat.
Proof.
  unfold _notify_data_update. destruct (data_callback (self w)); cbn; lia.
Qed.

Lemma notify_heap w l :
  (l < next_loc w)%nat -> heap (_notify_data_update w) !! l = heap w !! l.
Proof.
  intros Hlt. unfold _notify_data_update.
  destruct (data_callback (self w)); [| reflexivity].
  cbn. rewrite lookup_insert_ne; [reflexivity | lia].
Qed.

(** No event moves the health-data reference. *)
Lemma step_health_data w e :
  health_data (self (step w e)) = health_data (self w).
Proof.
  destruct e as [data | data | data | data | [data | err] | cb |]; cbn [step];
    try reflexivity.
  - unfold heart_rate_handler. destruct (_parse_heart_rate data); cbn [snd];
      [now rewrite notify_self | reflexivity].
  - unfold temperature_handler. destruct (_parse_temperature data); cbn [snd];
      [now rewrite notify_self | reflexivity].
  - unfold bp_handler. destruct (_parse_blood_pressure data) as [[s d] |];
      cbn [snd]; [now rewrite notify_self | reflexivity].
  - unfold oxygen_handler. destruct (_parse_oxygen data); cbn [snd];
      [now rewrite notify_self | reflexivity].
Qed.

Lemma step_next w e : (next_loc w <= next_loc (step w e))%nat.
Proof.
  destruct e as [data | data | data | data | [data | err] | cb |]; cbn [step];
    try (cbn; lia).
  - unfold heart_rate_handler. destruct (_parse_heart_rate data); cbn [snd];
      [etrans; [| apply notify_next]; cbn; lia | lia].
  - unfold temperature_handler. destruct (_parse_temperature data); cbn [snd];
      [etrans; [| apply notify_next]; cbn; lia | lia].
  - unfold bp_handler. destruct (_parse_blood_pressure data) as [[s d] |];
      cbn [snd]; [etrans; [| apply notify_next]; cbn; lia | lia].
  - unfold oxygen_handler. destruct (_parse_oxygen data); cbn [snd];
      [etrans; [| apply notify_next]; cbn; lia | lia].
Qed.

Lemma step_wf w e : wf w -> wf (step w e).
Proof.
  unfold wf. intros Hwf. rewrite step_health_data.
  pose proof (step_next w e). lia.
Qed.

(** An event writes to the health-data dictionary and to fresh
    locations only. *)
Lemma step_heap_other w e l :
  l <> health_data (self w) -> (l < next_loc w)%nat ->
  heap (step w e) !! l = heap w !! l.
Proof.
  intros Hne Hlt.
  destruct e as [data | data | data | data | [data | err] | cb |]; cbn [step];
    try reflexivity.
  - unfold heart_rate_handler. destruct (_parse_heart_rate data); cbn [snd];
      [| reflexivity].
    rewrite notify_heap by (now rewrite setitem_next).
    now rewrite setitem_heap_ne.
  - unfold temperature_handler. destruct (_parse_temperature data); cbn [snd];
      [| reflexivity].
    rewrite notify_heap by (now rewrite setitem_next).
    now rewrite setitem_heap_ne.
  - unfold bp_handler. destruct (_parse_blood_pressure data) as [[s d] |];
      cbn [snd]; [| reflexivity].
    rewrite notify_heap by (now rewrite !setitem_next).
    rewrite setitem_heap_ne by (now rewrite setitem_self).
    now rewrite setitem_heap_ne.
  - unfold oxygen_handler. destruct (_parse_oxygen data); cbn [snd];
      [| reflexivity].
    rewrite notify_heap by (now rewrite setitem_next).
    now rewrite setitem_heap_ne.
  - unfold _read_battery. now rewrite setitem_heap_ne.
  - unfold get_current_data. now apply copy_heap_old.
Qed.

Lemma run_wf evs w : wf w -> wf (run evs w).
Proof.
  revert w. induction evs as [| e evs IH]; intros w Hwf; [exact Hwf |].
  apply IH, step_wf, Hwf.
Qed.

Lemma run_health_data evs w :
  health_data (self (run evs w)) = health_data (self w).
Proof.
  revert w. induction evs as [| e evs IH]; intros w; [reflexivity |].
  cbn [run fold_left]. fold (run evs (step w e)).
  now rewrite IH, step_health_data.
Qed.

(** A dictionary other than [health_data] survives any run. *)
Lemma run_heap_other evs w l :
  wf w -> l <> health_data (self w) -> (l < next_loc w)%nat ->
  heap (run evs w) !! l = heap w !! l.
Proof.
  revert w. induction evs as [| e evs IH]; intros w Hwf Hne Hlt; [reflexivity |].
  cbn [run fold_left]. fold (run evs (step w e)).
  rewrite IH.
  - now apply step_heap_other.
  - now apply step_wf.
  - now rewrite step_health_data.
  - pose proof (step_next w e). lia.
Qed.

Lemma setitem_allocated l k v w : allocated w -> allocated (dict_setitem l k v w).
Proof.
  unfold allocated. rewrite setitem_self. intros [d Hd].
  destruct (decide (l = health_data (self w))) as [-> | Hne].
  - rewrite setitem_heap_eq, Hd. now eexists.
  - rewrite setitem_heap_ne, Hd by done. now eexists.
Qed.

Lemma notify_allocated w : wf w -> allocated w -> allocated (_notify_data_update w).
Proof.
  unfold allocated, wf. intros Hwf Hd.
  now rewrite notify_self, notify_heap.
Qed.

Lemma field_setitem k k' v w :
  allocated w ->
  field k' (dict_setitem (health_data (self w)) k v w)
  = if decide (k = k') then Some v else field k' w.
Proof.
  intros [d Hd]. unfold field.
  rewrite setitem_self, setitem_heap_eq, Hd. cbn.
  destruct (decide (k = k')) as [-> | Hne].
  - apply lookup_insert_eq.
  - now apply lookup_insert_ne.
Qed.

Lemma field_notify k w : wf w -> field k (_notify_data_update w) = field k w.
Proof.
  unfold field, wf. intros Hwf. now rewrite notify_self, notify_heap.
Qed.

Lemma field_copy k w :
  wf w -> field k (snd (get_current_data w)) = field k w.
Proof.
  unfold field, wf, get_current_data. intros Hwf.
  now rewrite copy_heap_old.
Qed.

Lemma field_set_callback k cb w : field k (set_data_callback cb w) = field k w.
Proof. reflexivity. Qed.

Lemma step_allocated w e : wf w -> allocated w -> allocated (step w e).
Proof.
  intros Hwf Hal.
  destruct e as [data | data | data | data | [data | err] | cb |]; cbn [step];
    try exact Hal.
  - unfold heart_rate_handler. destruct (_parse_heart_rate data); cbn [snd];
      [| exact Hal].
    apply notify_allocated; [exact Hwf | now apply setitem_allocated].
  - unfold temperature_handler. destruct (_parse_temperature data); cbn [snd];
      [| exact Hal].
    apply notify_allocated; [exact Hwf | now apply setitem_allocated].
  - unfold bp_handler. destruct (_parse_blood_pressure data) as [[s d] |];
      cbn [snd]; [| exact Hal].
    apply notify_allocated; [exact Hwf | now do 2 apply setitem_allocated].
  - unfold oxygen_handler. destruct (_parse_oxygen data); cbn [snd];
      [| exact Hal].
    apply notify_allocated; [exact Hwf | now apply setitem_allocated].
  - now apply setitem_allocated.
  - unfold allocated, get_current_data.
    rewrite copy_heap_old; [exact Hal | exact Hwf].
Qed.

(** One event, seen from one key of [health_data]: the key takes the value
    the event decodes to for it, and keeps its value otherwise. *)
Ltac field_step :=
  repeat first
    [ rewrite field_notify by assumption
    | rewrite field_setitem by (repeat apply setitem_allocated; assumption)
    | rewrite setitem_self ];
  repeat case_decide; done.

Ltac open_handler :=
  lazymatch goal with
  | |- context [heart_rate_handler ?d _] =>
      unfold heart_rate_handler; destruct (_parse_heart_rate d)
  | |- context [temperature_handler ?d _] =>
      unfold temperature_handler; destruct (_parse_temperature d)
  | |- context [bp_handler ?d _] =>
      unfold bp_handler; destruct (_parse_blood_pressure d) as [[? ?] |]
  | |- context [oxygen_handler ?d _] =>
      unfold oxygen_handler; destruct (_parse_oxygen d)
  | |- context [_read_battery _ _] => unfold _read_battery
  | |- context [get_current_data _] => rewrite field_copy by assumption
  | |- context [set_data_callback _ _] => rewrite field_set_callback
  end.

Lemma step_field w e k (pick : event -> option num) :
  (k, pick) ∈ [("heart_rate"%string, decoded_heart_rate);
               ("temperature"%string, decoded_temperature);
               ("blood_pressure_systolic"%string, decoded_systolic);
               ("blood_pressure_diastolic"%string, decoded_diastolic);
               ("oxygen_saturation"%string, decoded_oxygen);
               ("battery_level"%string, decoded_battery)] ->
  wf w -> allocated w ->
  field k (step w e)
  = match pick e with Some v => Some (Some v) | None => field k w end.
Proof.
  intros Hin Hwf Hal.
  assert (Hwf' : forall l k' v, wf (dict_setitem l k' v w)) by (intros; exact Hwf).
  assert (Hwf'' : forall l k' v l2 k2 v2,
             wf (dict_setitem l2 k2 v2 (dict_setitem l k' v w)))
    by (intros; exact Hwf).
  repeat (apply elem_of_cons in Hin as [Heq | Hin];
          [injection Heq as -> -> |]);
    [.. | now apply elem_of_nil in Hin];
    destruct e as [data | data | data | data | [data | err] | cb |];
    cbn [step decoded_heart_rate decoded_temperature decoded_systolic
         decoded_diastolic decoded_oxygen decoded_battery];
    try reflexivity;
    open_handler; cbn [snd]; try reflexivity; field_step.
Qed.

Lemma run_field evs w k (pick : event -> option num) :
  (forall w' e, wf w' -> allocated w' ->
                field k (step w' e)
                = match pick e with Some v => Some (Some v) | None => field k w' end) ->
  wf w -> allocated w ->
  field k (run evs w)
  = match latest pick evs with Some v => Some (Some v) | None => field k w end.
Proof.
  intros Hstep. revert w.
  induction evs as [| e evs IH]; intros w Hwf Hal; [reflexivity |].
  cbn [run fold_left latest]. fold (run evs (step w e)).
  rewrite IH by (apply step_wf || apply step_allocated; assumption).
  destruct (latest pick evs); [reflexivity |].
  now apply Hstep.
Qed.

Lemma snapshot_lookup w k : allocated w -> snapshot w !! k = field k w.
Proof.
  intros [d Hd]. unfold snapshot, field, get_current_data, dict_copy.
  cbn [heap]. rewrite lookup_insert_eq, Hd. reflexivity.
Qed.

Lemma run_allocated evs w : wf w -> allocated w -> allocated (run evs w).
Proof.
  revert w. induction evs as [| e evs IH]; intros w Hwf Hal; [exact Hal |].
  apply IH; [now apply step_wf | now apply step_allocated].
Qed.

Lemma init_wf : wf __init__.
Proof. unfold wf. cbn. lia. Qed.

Lemma init_allocated : allocated __init__.
Proof. unfold allocated. cbn. rewrite lookup_insert_eq. now eexists. Qed.

End Store.

(** C3.  After any sequence of events on a new monitor, each key of the
    dictionary [get_current_data()] returns holds the value of the latest
    event that decoded successfully for that key, and [None] when there was
    none; a handler whose decoder raises leaves the whole state, and so
    the key it would have written, as it was. *)
Theorem snapshot_latest_successful_decode :
  (forall evs : list event,
      let d := snapshot (run evs __init__) in
      d !! "heart_rate"%string = Some (latest decoded_heart_rate evs) /\
      d !! "temperature"%string = Some (latest decoded_temperature evs) /\
      d !! "blood_pressure_systolic"%string = Some (latest decoded_systolic evs) /\
      d !! "blood_pressure_diastolic"%string = Some (latest decoded_diastolic evs) /\
      d !! "oxygen_saturation"%string = Some (latest decoded_oxygen evs) /\
      d !! "battery_level"%string = Some (latest decoded_battery evs)) /\
  (forall (data : bytes) (e : exn) (w : world),
      (_parse_heart_rate data = Raise e ->
       heart_rate_handler data w = (Raise e, w)) /\
      (_parse_temperature data = Raise e ->
       temperature_handler data w = (Raise e, w)) /\
      (_parse_blood_pressure data = Raise e ->
       bp_handler data w = (Raise e, w)) /\
      (_parse_oxygen data = Raise e ->
       oxygen_handler data w = (Raise e, w))).
Proof.
  split.
  - intros evs d. subst d.
    pose proof init_wf as Hwf. pose proof init_allocated as Hal.
    pose proof (run_allocated evs __init__ Hwf Hal) as Hrun.
    rewrite !snapshot_lookup by exact Hrun.
    repeat split.
    all: match goal with
         | |- field ?k _ = Some (latest ?pick _) =>
             rewrite (run_field evs __init__ k pick
                        (fun w' e Hw Ha =>
                           step_field w' e k pick ltac:(set_solver) Hw Ha)
                        Hwf Hal);
             destruct (latest pick evs); [reflexivity | vm_compute; reflexivity]
         end.
  - intros data e w. repeat split; intros Hfail.
    + unfold heart_rate_handler. now rewrite Hfail.
    + unfold temperature_handler. now rewrite Hfail.
    + unfold bp_handler. now rewrite Hfail.
    + unfold oxygen_handler. now rewrite Hfail.
Qed.

Lemma snapshot_latest_successful_decode_witness :
  heart_rate_handler [] __init__ = (Raise IndexError, __init__) /\
  temperature_handler [] __init__ = (Raise IndexError, __init__) /\
  bp_handler [] __init__ = (Raise IndexError, __init__) /\
  oxygen_handler [] __init__ = (Raise IndexError, __init__).
Proof.
  destruct snapshot_latest_successful_decode as [_ H].
  destruct (H [] IndexError __init__) as (H1 & H2 & H3 & H4).
  split; [apply H1; reflexivity |].
  split; [apply H2; reflexivity |].
  split; [apply H3; reflexivity | apply H4; reflexivity].
Defined.

(** C8.  In a state whose health-data reference is allocated, the
    dictionary [get_current_data()] returns and the dictionary
    [_notify_data_update()] passes to the callback are new objects holding
    the items of [health_data] at that moment, distinct from [health_data]
    itself, and no later sequence of events changes them. *)
Theorem snapshots_are_copies :
  forall w : world,
    wf w ->
    (forall (l : loc) (w' : world),
        get_current_data w = (l, w') ->
        l <> health_data (self w') /\
        heap w' !! l = Some (default ∅ (heap w !! health_data (self w))) /\
        forall evs : list event, heap (run evs w') !! l = heap w' !! l) /\
    (forall cb : nat,
        data_callback (self w) = Some cb ->
        exists l : loc,
          calls (_notify_data_update w) = calls w ++ [(cb, l)] /\
          l <> health_data (self (_notify_data_update w)) /\
          heap (_notify_data_update w) !! l
          = Some (default ∅ (heap w !! health_data (self w))) /\
          forall evs : list event,
            heap (run evs (_notify_data_update w)) !! l
            = heap (_notify_data_update w) !! l).
Proof.
  intros w Hwf. unfold wf in Hwf. split.
  - intros l w' Hget. unfold get_current_data, dict_copy in Hget.
    injection Hget as <- <-. cbn [self heap next_loc].
    split; [lia |]. split; [apply lookup_insert_eq |].
    intros evs. apply run_heap_other; unfold wf; cbn [self next_loc]; lia.
  - intros cb Hcb. exists (next_loc w).
    unfold _notify_data_update. rewrite Hcb.
    cbn [dict_copy self heap next_loc calls].
    split; [reflexivity |]. split; [lia |]. split; [apply lookup_insert_eq |].
    intros evs. apply run_heap_other; unfold wf; cbn [self next_loc]; lia.
Qed.

Lemma snapshots_are_copies_witness :
  heap (run [HeartRate [x00; x64]; Oxygen [x00; x61]]
            (snd (get_current_data __init__)))
    !! fst (get_current_data __init__)
  = heap (snd (get_current_data __init__)) !! fst (get_current_data __init__).
Proof.
  destruct (snapshots_are_copies __init__) as [Hget _].
  - unfold wf. simpl. lia.
  - destruct (Hget (fst (get_current_data __init__))
                   (snd (get_current_data __init__)) eq_refl)
      as (_ & _ & Hkeep).
    exact (Hkeep [HeartRate [x00; x64]; Oxygen [x00; x61]]).
Defined.

(** ** Device discovery *)

Section Scan.

Implicit Types (s kw pre mid post : string) (device : BLEDevice).

Lemma prefix_spec kw s :
  String.prefix kw s = true <-> exists post, s = (kw ++ post)%string.
Proof.
  revert s. induction kw as [| c kw IH]; intros s.
  - split; [intros _; now exists s | intros _; now destruct s].
  - destruct s as [| c' s]; cbn [String.prefix].
    + split; [discriminate | intros [post Hpost]; discriminate].
    + destruct (Ascii.ascii_dec c c') as [<- | Hne].
      * rewrite IH. split; intros [post Hpost]; exists post.
        -- now subst s.
        -- simpl in Hpost. now injection Hpost.
      * split; [discriminate |].
        intros [post Hpost]. simpl in Hpost. injection Hpost as Hc _. congruence.
Qed.

Lemma contains_spec s kw :
  contains s kw = true <-> exists pre post, s = (pre ++ kw ++ post)%string.
Proof.
  induction s as [| c s IH]; cbn [contains]; rewrite orb_true_iff, prefix_spec.
  - split.
    + intros [[post Hpost] | Hf]; [| discriminate].
      exists EmptyString, post. exact Hpost.
    + intros ([| c pre] & post & Heq); [| discriminate].
      left. now exists post.
  - rewrite IH. split.
    + intros [[post Hpost] | (pre & post & Heq)].
      * exists EmptyString, post. exact Hpost.
      * exists (String c pre), post. now subst s.
    + intros ([| c' pre] & post & Heq).
      * left. now exists post.
      * right. simpl in Heq. injection Heq as _ Heq. now exists pre, post.
Qed.

Lemma lower_app s1 s2 : lower (s1 ++ s2) = (lower s1 ++ lower s2)%string.
Proof. induction s1 as [| c s1 IH]; simpl; [reflexivity | now rewrite IH]. Qed.

Lemma lower_split s a b :
  lower s = (a ++ b)%string ->
  exists s1 s2, s = (s1 ++ s2)%string /\ lower s1 = a /\ lower s2 = b.
Proof.
  revert s. induction a as [| c a IH]; intros s Heq.
  - exists EmptyString, s. now repeat split.
  - destruct s as [| c' s]; [discriminate |].
    simpl in Heq. injection Heq as Hc Heq.
    destruct (IH s Heq) as (s1 & s2 & -> & <- & <-).
    exists (String c' s1), s2. simpl. now rewrite Hc.
Qed.

(** Looking for the keyword in the lowered name is looking for it in the
    name with letter case ignored. *)
Lemma contains_lower_spec s kw :
  contains (lower s) kw = true <-> occurs_ignoring_case kw s.
Proof.
  rewrite contains_spec. unfold occurs_ignoring_case. split.
  - intros (pre' & post' & Heq).
    apply lower_split in Heq as (pre & rest & -> & <- & Hrest).
    apply lower_split in Hrest as (mid & post & -> & <- & <-).
    now exists pre, mid, post.
  - intros (pre & mid & post & -> & <-).
    exists (lower pre), (lower post). now rewrite !lower_app.
Qed.

Lemma keywords_nonempty kw : In kw keywords -> kw <> EmptyString.
Proof.
  unfold keywords. cbn [In]. intros H.
  repeat (destruct H as [<- | H]; [discriminate |]). contradiction.
Qed.

Lemma is_health_device_spec device :
  is_health_device device = true <-> health_named device.
Proof.
  unfold is_health_device, health_named. destruct (name device) as [n |].
  - rewrite andb_true_iff, negb_true_iff, existsb_exists. split.
    + intros [_ (kw & Hin & Hkw)]. exists n. split; [reflexivity |].
      exists kw. split; [exact Hin | now apply contains_lower_spec].
    + intros (n' & Hn & kw & Hin & Hocc). injection Hn as <-. split.
      * apply String.eqb_neq. intros ->.
        destruct Hocc as (pre & mid & post & Heq & Hmid).
        destruct pre; [| discriminate]. destruct mid; [| discriminate].
        apply (keywords_nonempty kw Hin). now rewrite <- Hmid.
      * exists kw. split; [exact Hin | now apply contains_lower_spec].
  - split; [discriminate | intros (n & Hn & _); discriminate].
Qed.

Lemma name_or_unknown_health device :
  is_health_device device = true ->
  name_or_unknown (name device) = default "Unknown"%string (name device).
Proof.
  unfold is_health_device, name_or_unknown.
  destruct (name device) as [n |]; [| discriminate].
  rewrite andb_true_iff, negb_true_iff. now intros [-> _].
Qed.

(** The loop of [scan_devices] from any accumulator. *)
Lemma scan_loop (devices : list BLEDevice) (acc : list health_device) :
  fold_left
    (fun health_devices device =>
       if is_health_device device
       then health_devices ++
              [ {| hd_address := address device;
                   hd_name := name_or_unknown (name device);
                   hd_rssi := rssi device |} ]
       else health_devices)
    devices acc
  = acc ++ map entry_of (List.filter is_health_device devices).
Proof.
  revert acc. induction devices as [| d devices IH]; intros acc; cbn [fold_left List.filter].
  - now rewrite app_nil_r.
  - rewrite IH. destruct (is_health_device d) eqn:Hd; [| reflexivity].
    cbn [map]. unfold entry_of at 2. rewrite <- (name_or_unknown_health d Hd).
    now rewrite <- app_assoc.
Qed.

End Scan.



(** ** Worked payloads *)

Example oxygen_97 : _parse_oxygen [x00; x61] = Ok 97.
Proof. reflexivity. Qed.

Example blood_pressure_120_over_80 :
  _parse_blood_pressure [x00; x78; x00; x50; x00] = Ok (120, 80).
Proof. reflexivity. Qed.

(** 37 degrees Celsius sent as mantissa 37 with exponent 0 is converted:
    98.6 degrees Fahrenheit. *)
Example temperature_37_celsius :
  exists x : Q,
    _parse_temperature [x00; x25; x00; x00; x00] = Ok (PyFloat x) /\
    (x == 986 # 10)%Q.
Proof. eexists. split; [vm_compute; reflexivity | reflexivity]. Qed.

(** A reading already in Fahrenheit with a non-negative exponent is an
    [int] and is returned as it is. *)
Example temperature_fahrenheit_int :
  _parse_temperature [x01; x62; x00; x00; x00] = Ok (PyInt 98).
Proof. reflexivity. Qed.

(** A failed decode between two good ones does not show in the snapshot,
    and the callback is handed a new dictionary at every update. *)
Example interleaved_decodes :
  let w := run [SetCallback 7; HeartRate [x00; x64]; HeartRate [x00];
                Oxygen [x00; x61]; HeartRate [x01; xe8; x00]] __init__ in
  snapshot w !! "heart_rate"%string = Some (Some (PyInt 232)) /\
  snapshot w !! "oxygen_saturation"%string = Some (Some (PyInt 97)) /\
  snapshot w !! "temperature"%string = Some None /\
  calls w = [(7, 1); (7, 2); (7, 3)]%nat.
Proof. vm_compute. repeat split. Qed.

Example scan_keeps_order :
  scan_devices
    [ {| address := "01"; name := Some "Polar H10"%string; rssi := -60 |};
      {| address := "02"; name := Some ""%string; rssi := -61 |};
      {| address := "03"; name := Some "MI Smart Band 6"%string; rssi := -48 |};
      {| address := "04"; name := Some "Speaker"%string; rssi := -80 |} ]
  = [ {| hd_address := "01"; hd_name := "Polar H10"; hd_rssi := -60 |};
      {| hd_address := "03"; hd_name := "MI Smart Band 6"; hd_rssi := -48 |} ].
Proof. reflexivity. Qed.

(** * Further properties of the decoders *)

Lemma from_bytes_little_range (bs : bytes) :
  0 <= from_bytes_little bs < 256 ^ Z.of_nat (length bs).
Proof.
  induction bs as [| b bs IH].
  - cbn. lia.
  - cbn [from_bytes_little length]. rewrite Nat2Z.inj_succ, Z.pow_succ_r by lia.
    pose proof (byte_val_range b). lia.
Qed.

Lemma length_slice_le (data : bytes) (i j : nat) : (length (slice data i j) <= j - i)%nat.
Proof. unfold slice. rewrite length_take. lia. Qed.

Lemma parse_heart_rate_range (data : bytes) (v : Z) :
  _parse_heart_rate data = Ok v -> 0 <= v <= 65535.
Proof.
  destruct data as [| flags rest]; [discriminate |].
  unfold _parse_heart_rate. rewrite getitem_0. cbn [mbind result_bind Py.bind].
  destruct (truthy _).
  - intros [= <-].
    pose proof (from_bytes_little_range (slice (flags :: rest) 1 3)) as Hr.
    pose proof (length_slice_le (flags :: rest) 1 3) as Hl.
    assert (256 ^ Z.of_nat (length (slice (flags :: rest) 1 3)) <= 256 ^ 2)
      by (apply Z.pow_le_mono_r; lia).
    change (256 ^ 2) with 65536 in *. lia.
  - unfold getitem. destruct (_ !! _) as [b |]; [| discriminate].
    intros [= <-]. pose proof (byte_val_range b). lia.
Qed.

Lemma parse_oxygen_range (data : bytes) (v : Z) :
  _parse_oxygen data = Ok v -> 0 <= v <= 255.
Proof.
  destruct data as [| flags rest]; [discriminate |].
  unfold _parse_oxygen. rewrite getitem_0. cbn [mbind result_bind Py.bind].
  destruct (1 <? _)%nat.
  - unfold getitem. destruct (_ !! _) as [b |]; [| discriminate].
    intros [= <-]. pose proof (byte_val_range b). lia.
  - intros [= <-]. lia.
Qed.

(** A decoded heart rate is a 16-bit unsigned number, an 8-bit one when
    flags bit 0 is clear; a decoded oxygen saturation is an 8-bit unsigned
    number, not limited to 100. *)
Theorem decoded_ranges :
  (forall (data : bytes) (v : Z),
      _parse_heart_rate data = Ok v -> 0 <= v <= 65535) /\
  (forall (flags : byte) (rest : bytes) (v : Z),
      Z.testbit (byte_val flags) 0 = false ->
      _parse_heart_rate (flags :: rest) = Ok v -> 0 <= v <= 255) /\
  (forall (data : bytes) (v : Z),
      _parse_oxygen data = Ok v -> 0 <= v <= 255) /\
  _parse_oxygen [x00; xff] = Ok 255.
Proof.
  split; [exact parse_heart_rate_range |].
  split; [| split; [exact parse_oxygen_range | reflexivity]].
  intros flags rest v Hbit.
  unfold _parse_heart_rate. rewrite getitem_0. cbn [mbind result_bind Py.bind].
  rewrite truthy_flag, Hbit.
  unfold getitem. destruct (_ !! _) as [b |]; [| discriminate].
  intros [= <-]. pose proof (byte_val_range b). lia.
Qed.

Lemma decoded_ranges_witness :
  0 <= 300 <= 65535 /\ 0 <= 72 <= 255 /\ 0 <= 97 <= 255.
Proof.
  destruct decoded_ranges as (H16 & H8 & Hox & _).
  split; [exact (H16 [x01; x2c; x01] 300 eq_refl) |].
  split; [exact (H8 x00 [x48] 72 eq_refl eq_refl) |].
  exact (Hox [x00; x61] 97 eq_refl).
Defined.

(** The heart-rate decoder looks at bit 0 of the flags byte and at bytes 1
    and 2 only: the other flag bits and everything after byte 2 (energy
    expended, RR intervals) have no effect. *)
Theorem parse_heart_rate_frame :
  forall (flags flags' b1 b2 : byte) (rest rest' : bytes),
    Z.testbit (byte_val flags) 0 = Z.testbit (byte_val flags') 0 ->
    _parse_heart_rate (flags :: b1 :: b2 :: rest)
    = _parse_heart_rate (flags' :: b1 :: b2 :: rest').
Proof.
  intros flags flags' b1 b2 rest rest' Hbit.
  unfold _parse_heart_rate. rewrite !getitem_0. cbn [mbind result_bind Py.bind].
  rewrite !truthy_flag, Hbit. reflexivity.
Qed.

Lemma parse_heart_rate_frame_witness :
  _parse_heart_rate [x10; x48; x00; x20; x03]
  = _parse_heart_rate [x06; x48; x00].
Proof.
  apply (parse_heart_rate_frame x10 x06 x48 x00 [x20; x03] []). reflexivity.
Defined.

(** Each decoder fails exactly when a byte it indexes is missing, and then
    with [IndexError]: heart rate needs two bytes, or one byte with flags
    bit 0 set; the other three need one byte. *)
Theorem decoders_fail_only_on_missing_bytes :
  forall data : bytes,
    (is_ok (_parse_heart_rate data) = true <->
     (2 <= length data)%nat \/
     exists flags, data = [flags] /\ Z.testbit (byte_val flags) 0 = true) /\
    (is_ok (_parse_temperature data) = true <-> data <> []) /\
    (is_ok (_parse_blood_pressure data) = true <-> data <> []) /\
    (is_ok (_parse_oxygen data) = true <-> data <> []) /\
    (forall e : exn,
        _parse_heart_rate data = Raise e \/ _parse_temperature data = Raise e \/
        _parse_blood_pressure data = Raise e \/ _parse_oxygen data = Raise e ->
        e = IndexError).
Proof.
  intros data. split; [| split; [| split; [| split]]].
  - destruct data as [| flags [| b1 rest]].
    + split; [discriminate |].
      intros [Hlen | (flags & Heq & _)]; [simpl in Hlen; lia | discriminate].
    + unfold _parse_heart_rate. rewrite getitem_0. cbn [mbind result_bind Py.bind].
      rewrite truthy_flag. destruct (Z.testbit (byte_val flags) 0) eqn:Hbit.
      * split; [intros _; right; now exists flags | reflexivity].
      * split; [discriminate |].
        intros [Hlen | (f & [= <-] & Hf)]; [simpl in Hlen; lia | congruence].
    + split; [intros _; left; simpl; lia | intros _].
      unfold _parse_heart_rate. rewrite getitem_0. cbn [mbind result_bind Py.bind].
      destruct (truthy _); reflexivity.
  - destruct data as [| flags rest]; [split; [discriminate | congruence] |].
    split; [discriminate | intros _; apply parse_temperature_nonempty].
  - destruct data; [split; [discriminate | congruence] |].
    split; [discriminate | reflexivity].
  - destruct data as [| flags [| b1 rest]]; [split; [discriminate | congruence] | |];
      (split; [discriminate | reflexivity]).
  - intros e [H | [H | [H | H]]].
    + destruct data as [| flags [| b1 rest]]; [now injection H | |].
      * revert H. unfold _parse_heart_rate. rewrite getitem_0.
        cbn [mbind result_bind Py.bind]. destruct (truthy _); [discriminate |].
        now intros [= <-].
      * revert H. unfold _parse_heart_rate. rewrite getitem_0.
        cbn [mbind result_bind Py.bind]. destruct (truthy _); discriminate.
    + destruct data as [| flags rest]; [now injection H |].
      pose proof (parse_temperature_nonempty flags rest) as Hok.
      rewrite H in Hok. discriminate.
    + destruct data; [now injection H | discriminate].
    + destruct data as [| flags [| b1 rest]]; [now injection H | discriminate ..].
Qed.

Lemma decoders_fail_only_on_missing_bytes_witness :
  is_ok (_parse_heart_rate [x01]) = true /\
  is_ok (_parse_temperature [x00]) = true /\
  (IndexError = IndexError).
Proof.
  destruct (decoders_fail_only_on_missing_bytes [x01]) as (Hhr & _).
  destruct (decoders_fail_only_on_missing_bytes [x00]) as (_ & Ht & _).
  destruct (decoders_fail_only_on_missing_bytes []) as (_ & _ & _ & _ & He).
  split; [apply Hhr; right; exists x01; split; reflexivity |].
  split; [apply Ht; discriminate |].
  apply (He IndexError). left. reflexivity.
Defined.

(** The blood-pressure decoder never looks at the flags byte (so not at
    the unit bit either) nor beyond byte 4. *)
Theorem parse_blood_pressure_frame :
  forall (flags flags' b1 b2 b3 b4 : byte) (rest rest' : bytes),
    _parse_blood_pressure (flags :: b1 :: b2 :: b3 :: b4 :: rest)
    = _parse_blood_pressure (flags' :: b1 :: b2 :: b3 :: b4 :: rest').
Proof. reflexivity. Qed.

Lemma truncate_bound (q : Q) (B : Z) :
  (Qabs q <= inject_Z B)%Q -> Z.abs (truncate q) <= B.
Proof.
  destruct q as [a d]. unfold truncate, Qle, Qabs, inject_Z. cbn [Qnum Qden].
  intros Hq.
  rewrite <- (Z.quot_abs a (Z.pos d)) by lia.
  change (Z.abs (Z.pos d)) with (Z.pos d).
  rewrite Z.quot_div_nonneg by lia.
  apply Z.div_le_upper_bound; lia.
Qed.

Lemma int_parse_sfloat_bound (bs : bytes) :
  Z.abs (Py.int (_parse_sfloat bs)) <= 20480000000.
Proof.
  rewrite int_is_truncate. apply truncate_bound.
  exact (sfloat_magnitude _ _ (sfloat_mantissa_range _) (sfloat_exponent_range _)).
Qed.

Lemma parse_blood_pressure_range (data : bytes) (systolic diastolic : Z) :
  _parse_blood_pressure data = Ok (systolic, diastolic) ->
  Z.abs systolic <= 20480000000 /\ Z.abs diastolic <= 20480000000.
Proof.
  destruct data as [| flags rest]; [discriminate |].
  unfold _parse_blood_pressure. rewrite getitem_0. cbn [mbind result_bind Py.bind].
  intros [= <- <-]. split; apply int_parse_sfloat_bound.
Qed.

(** Whatever the payload, a decoded systolic or diastolic value is an
    integer of magnitude at most 2048 * 10^7. *)
Theorem parse_blood_pressure_bounded :
  forall (data : bytes) (systolic diastolic : Z),
    _parse_blood_pressure data = Ok (systolic, diastolic) ->
    Z.abs systolic <= 20480000000 /\ Z.abs diastolic <= 20480000000.
Proof.
  intros [| flags rest] systolic diastolic; [discriminate |].
  unfold _parse_blood_pressure. rewrite getitem_0. cbn [mbind result_bind Py.bind].
  intros [= <- <-]. split; apply int_parse_sfloat_bound.
Qed.

Lemma parse_blood_pressure_bounded_witness :
  Z.abs 120 <= 20480000000 /\ Z.abs (-80) <= 20480000000.
Proof.
  exact (parse_blood_pressure_bounded [x00; x78; x00; xf8; x1f] 120 (-80) eq_refl).
Defined.

Lemma twos_complement_back (n u : Z) :
  0 <= n -> 0 <= u < 2 ^ (n + 1) ->
  twos_complement (n + 1) u mod 2 ^ (n + 1) = u.
Proof.
  intros Hn Hu. unfold twos_complement.
  destruct (Z.testbit u (n + 1 - 1)).
  - symmetry. apply Z.mod_unique with (q := -1); lia.
  - apply Z.mod_small. lia.
Qed.

Lemma nth_byte_0_of_bytes (b0 : byte) (hi : Z) :
  nth_byte (byte_val b0 + 256 * hi) 0 = b0.
Proof.
  unfold nth_byte. change (256 ^ 0) with 1. rewrite Z.div_1_r.
  pose proof (byte_val_range b0).
  replace ((byte_val b0 + 256 * hi) mod 256) with (byte_val b0)
    by (apply Z.mod_unique with (q := hi); lia).
  unfold byte_val. rewrite N2Z.id, Byte.of_to_N. reflexivity.
Qed.

Lemma nth_byte_1_of_bytes (b0 b1 : byte) (hi : Z) :
  nth_byte (byte_val b0 + 256 * (byte_val b1 + 256 * hi)) 1 = b1.
Proof.
  unfold nth_byte. change (256 ^ 1) with 256.
  pose proof (byte_val_range b0). pose proof (byte_val_range b1).
  replace ((byte_val b0 + 256 * (byte_val b1 + 256 * hi)) / 256)
    with (byte_val b1 + 256 * hi)
    by (apply Z.div_unique with (r := byte_val b0); lia).
  replace ((byte_val b1 + 256 * hi) mod 256) with (byte_val b1)
    by (apply Z.mod_unique with (q := hi); lia).
  unfold byte_val. rewrite N2Z.id, Byte.of_to_N. reflexivity.
Qed.


(** ** Temperature, continued *)

Lemma round_half_even_near (y : Q) (n : Z) :
  (inject_Z n - (1 # 2) < y)%Q -> (y < inject_Z n + (1 # 2))%Q ->
  round_half_even y = n.
Proof.
  destruct y as [a d]. unfold round_half_even.
  cbv [Qlt Qplus Qminus Qopp inject_Z Qnum Qden]. cbn [Pos.mul Z.opp].
  intros Hlo Hhi.
  assert (Hd : 0 < Z.pos d) by lia.
  set (D := Z.pos d) in *.
  assert (Hlo' : (2 * n - 1) * D < 2 * a) by lia.
  assert (Hhi' : 2 * a < (2 * n + 1) * D) by lia.
  clear Hlo Hhi.
  pose proof (Z.div_mod a D ltac:(lia)) as Hdm.
  pose proof (Z.mod_pos_bound a D Hd) as Hr.
  set (f := a / D) in *. set (r := a mod D) in *.
  assert (Hf : f = n \/ f = n - 1) by nia.
  destruct Hf as [-> | ->].
  - destruct (Z.ltb_spec (2 * r) D); [reflexivity | nia].
  - destruct (Z.ltb_spec (2 * r) D); [nia |].
    destruct (Z.ltb_spec D (2 * r)); [lia | nia].
Qed.

Lemma float_mantissa_range (v : Z) : -8388608 <= float_mantissa v <= 8388607.
Proof.
  rewrite float_mantissa_spec.
  pose proof (twos_complement_range 23 (bit_field v 0 24) ltac:(lia)
                (bit_field_range v 0 24 ltac:(lia))).
  change (23 + 1) with 24 in *. change (2 ^ 23) with 8388608 in *. lia.
Qed.

(** A 24-bit mantissa scaled by ten to an exponent of -257 or less is
    below a hundredth in magnitude. *)
Lemma tiny_celsius (m e : Z) :
  -8388608 <= m <= 8388607 -> e <= -257 ->
  (- (1 # 100) < inject_Z m * Qpower 10 e /\ inject_Z m * Qpower 10 e < 1 # 100)%Q.
Proof.
  intros Hm He.
  pose proof (Qpower_0_lt 10 e ltac:(reflexivity)) as Hpos.
  pose proof (Qpower_le_compat_l 10 e (-10) ltac:(lia) ltac:(discriminate)) as Hle.
  change (Qpower 10 (-10)) with (1 # 10000000000)%Q in Hle.
  set (p := Qpower 10 e) in *.
  assert (Hlo : (inject_Z (-8388608) <= inject_Z m)%Q) by (rewrite <- Zle_Qle; lia).
  assert (Hhi : (inject_Z m <= inject_Z 8388607)%Q) by (rewrite <- Zle_Qle; lia).
  change (inject_Z (-8388608)) with (-8388608)%Q in Hlo.
  change (inject_Z 8388607) with 8388607%Q in Hhi.
  split; nra.
Qed.

(** Every temperature payload whose exponent byte is [0x80] or above, that
    is every negative exponent, decodes to 32 degrees when flags bit 0 is
    clear and to 0 when it is set, whatever the mantissa. *)
Theorem parse_temperature_negative_exponent_collapse :
  forall (flags b1 b2 b3 b4 : byte) (rest : bytes),
    128 <= byte_val b4 ->
    exists x : Q,
      _parse_temperature (flags :: b1 :: b2 :: b3 :: b4 :: rest) = Ok (PyFloat x) /\
      (x == if Z.testbit (byte_val flags) 0 then 0 else 32)%Q.
Proof.
  intros flags b1 b2 b3 b4 rest Hb4.
  unfold _parse_temperature. rewrite getitem_0. cbn [mbind result_bind Py.bind].
  change (slice (flags :: b1 :: b2 :: b3 :: b4 :: rest) 1 5) with [b1; b2; b3; b4].
  rewrite truthy_flag, float_exponent_high_byte.
  pose proof (byte_val_range b4) as Hr.
  destruct (Z.ltb_spec (byte_val b4) 128) as [| _]; [lia |].
  pose proof (float_mantissa_range (from_bytes_little_signed [b1; b2; b3; b4])) as Hm.
  set (m := float_mantissa _) in *.
  set (e := byte_val b4 - 512).
  assert (He : e <= -257) by (subst e; lia).
  unfold pow10. destruct (Z.leb_spec 0 e) as [| _]; [lia |].
  cbn [mul_int].
  destruct (tiny_celsius m e Hm He) as [Hlo Hhi].
  set (x := (inject_Z m * Qpower 10 e)%Q) in *.
  destruct (Z.testbit (byte_val flags) 0).
  - eexists. split; [reflexivity |].
    rewrite (round_half_even_near _ 0).
    + reflexivity.
    + change (inject_Z 0) with 0%Q. lra.
    + change (inject_Z 0) with 0%Q. lra.
  - eexists. split; [reflexivity |].
    cbn [mul_lit div_lit add_lit value].
    rewrite (round_half_even_near _ 320).
    + reflexivity.
    + unfold Qdiv. change (/ inject_Z 5)%Q with (1 # 5)%Q.
      change (inject_Z 9) with 9%Q. change (inject_Z 32) with 32%Q.
      change (inject_Z 320) with 320%Q. lra.
    + unfold Qdiv. change (/ inject_Z 5)%Q with (1 # 5)%Q.
      change (inject_Z 9) with 9%Q. change (inject_Z 32) with 32%Q.
      change (inject_Z 320) with 320%Q. lra.
Qed.

Lemma parse_temperature_negative_exponent_collapse_witness :
  exists x : Q,
    _parse_temperature [x00; x6d; x01; x00; xff] = Ok (PyFloat x) /\
    (x == if Z.testbit (byte_val x00) 0 then 0 else 32)%Q.
Proof.
  apply (parse_temperature_negative_exponent_collapse x00 x6d x01 x00 xff []).
  vm_compute. discriminate.
Defined.

(** The temperature decoder looks at bit 0 of the flags byte and at bytes
    1 to 4 only: the time-stamp and type flags and everything after byte 4
    have no effect. *)
Theorem parse_temperature_frame :
  forall (flags flags' b1 b2 b3 b4 : byte) (rest rest' : bytes),
    Z.testbit (byte_val flags) 0 = Z.testbit (byte_val flags') 0 ->
    _parse_temperature (flags :: b1 :: b2 :: b3 :: b4 :: rest)
    = _parse_temperature (flags' :: b1 :: b2 :: b3 :: b4 :: rest').
Proof.
  intros flags flags' b1 b2 b3 b4 rest rest' Hbit.
  unfold _parse_temperature. rewrite !getitem_0. cbn [mbind result_bind Py.bind].
  rewrite !truthy_flag, Hbit. reflexivity.
Qed.

Lemma parse_temperature_frame_witness :
  _parse_temperature [x06; x25; x00; x00; x00; xe5; x07]
  = _parse_temperature [x00; x25; x00; x00; x00].
Proof.
  apply (parse_temperature_frame x06 x00 x25 x00 x00 x00 [xe5; x07] []).
  reflexivity.
Defined.

Lemma float_encode_bytes (raw : Z) :
  0 <= raw < 2 ^ 32 ->
  from_bytes_little [nth_byte raw 0; nth_byte raw 1; nth_byte raw 2; nth_byte raw 3]
  = raw.
Proof.
  intros Hraw. cbn [from_bytes_little]. rewrite !byte_val_nth_byte.
  change (256 ^ 0) with 1. change (256 ^ 1) with 256.
  change (256 ^ 2) with 65536. change (256 ^ 3) with 16777216.
  change (2 ^ 32) with 4294967296 in Hraw.
  Z.div_mod_to_equations. lia.
Qed.

(** The fields of the FLOAT format are read back from an encoding, for
    every mantissa and exponent of the format. *)
Lemma float_fields_encode (m e : Z) :
  - 2 ^ 23 <= m < 2 ^ 23 -> - 2 ^ 7 <= e < 2 ^ 7 ->
  let raw := m mod 2 ^ 24 + 2 ^ 24 * (e mod 2 ^ 8) in
  float_fields (nth_byte raw 0) (nth_byte raw 1) (nth_byte raw 2) (nth_byte raw 3)
  = (m, e).
Proof.
  intros Hm He raw. unfold float_fields.
  assert (Hmr : 0 <= m mod 2 ^ 24 < 2 ^ 24) by (apply Z.mod_pos_bound; lia).
  assert (Her : 0 <= e mod 2 ^ 8 < 2 ^ 8) by (apply Z.mod_pos_bound; lia).
  assert (Hraw : 0 <= raw < 2 ^ 32).
  { subst raw. change (2 ^ 32) with (2 ^ 24 * 2 ^ 8). nia. }
  unfold from_bytes_little_signed. rewrite float_encode_bytes by exact Hraw.
  cbn [length]. change (8 * Z.of_nat 4) with 32. cbn [Z.ltb Z.compare andb].
  assert (Hfields : forall v, v = raw \/ v = raw - 2 ^ 32 ->
                     bit_field v 0 24 = m mod 2 ^ 24 /\
                     bit_field v 24 8 = e mod 2 ^ 8).
  { intros v Hv. unfold bit_field. subst raw.
    change (2 ^ 32) with 4294967296 in *. change (2 ^ 24) with 16777216 in *.
    change (2 ^ 8) with 256 in *. change (2 ^ 0) with 1.
    destruct Hv as [-> | ->]; Z.div_mod_to_equations; lia. }
  assert (Hv : (if 2 ^ (32 - 1) <=? raw then raw - 2 ^ 32 else raw) = raw \/
               (if 2 ^ (32 - 1) <=? raw then raw - 2 ^ 32 else raw) = raw - 2 ^ 32)
    by (destruct (2 ^ (32 - 1) <=? raw); auto).
  destruct (Hfields _ Hv) as [-> ->].
  pose proof (twos_complement_mod 23 m ltac:(lia) Hm) as Hrm.
  pose proof (twos_complement_mod 7 e ltac:(lia) He) as Hre.
  change (23 + 1) with 24 in Hrm. change (7 + 1) with 8 in Hre.
  now rewrite Hrm, Hre.
Qed.



(** * Further properties of the vitals store *)

Lemma notify_without_callback (w : world) :
  data_callback (self w) = None -> _notify_data_update w = w.
Proof. intros H. unfold _notify_data_update. now rewrite H. Qed.

Lemma notify_delivers (w : world) (cb : nat) :
  wf w -> allocated w -> data_callback (self w) = Some cb ->
  exists l : loc,
    calls (_notify_data_update w) = calls w ++ [(cb, l)] /\
    l <> health_data (self (_notify_data_update w)) /\
    heap (_notify_data_update w) !! l
    = heap (_notify_data_update w) !! health_data (self (_notify_data_update w)).
Proof.
  unfold wf, allocated. intros Hwf [d Hd] Hcb. exists (next_loc w).
  unfold _notify_data_update. rewrite Hcb.
  cbn [dict_copy self heap next_loc calls].
  split; [reflexivity |]. split; [lia |].
  rewrite lookup_insert_eq, lookup_insert_ne by lia. now rewrite Hd.
Qed.

Lemma step_callback_kept (w : world) (e : event) :
  is_Some (data_callback (self w)) -> is_Some (data_callback (self (step w e))).
Proof.
  intros Hcb.
  destruct e as [data | data | data | data | [data | err] | cb |]; cbn [step];
    try exact Hcb.
  - unfold heart_rate_handler. destruct (_parse_heart_rate data); cbn [snd];
      [now rewrite notify_self | exact Hcb].
  - unfold temperature_handler. destruct (_parse_temperature data); cbn [snd];
      [now rewrite notify_self | exact Hcb].
  - unfold bp_handler. destruct (_parse_blood_pressure data) as [[s d] |];
      cbn [snd]; [now rewrite notify_self | exact Hcb].
  - unfold oxygen_handler. destruct (_parse_oxygen data); cbn [snd];
      [now rewrite notify_self | exact Hcb].
  - cbn. now eexists.
Qed.

Lemma step_callback_same (w : world) (e : event) :
  is_set_callback e = false ->
  data_callback (self (step w e)) = data_callback (self w).
Proof.
  intros Hset.
  destruct e as [data | data | data | data | [data | err] | cb |]; cbn [step];
    try reflexivity; try discriminate.
  - unfold heart_rate_handler. destruct (_parse_heart_rate data); cbn [snd];
      [now rewrite notify_self | reflexivity].
  - unfold temperature_handler. destruct (_parse_temperature data); cbn [snd];
      [now rewrite notify_self | reflexivity].
  - unfold bp_handler. destruct (_parse_blood_pressure data) as [[s d] |];
      cbn [snd]; [now rewrite notify_self | reflexivity].
  - unfold oxygen_handler. destruct (_parse_oxygen data); cbn [snd];
      [now rewrite notify_self | reflexivity].
Qed.

(** The calls one event adds: the callback in place, once, when the event
    is a notification that decodes; none otherwise. *)
Lemma step_calls (w : world) (e : event) :
  calls (step w e)
  = calls w ++
    match data_callback (self w) with
    | Some cb => if decodes e then [(cb, next_loc w)] else []
    | None => []
    end.
Proof.
  assert (Hn : forall w1 : world,
             data_callback (self w1) = data_callback (self w) ->
             next_loc w1 = next_loc w -> calls w1 = calls w ->
             calls (_notify_data_update w1)
             = calls w ++ match data_callback (self w) with
                          | Some cb => [(cb, next_loc w)]
                          | None => []
                          end).
  { intros w1 Hcb Hnext Hcalls. unfold _notify_data_update. rewrite Hcb.
    destruct (data_callback (self w)); cbn; rewrite ?Hnext, Hcalls;
      [reflexivity | now rewrite app_nil_r]. }
  assert (Hnil : calls w = calls w ++ match data_callback (self w) with
                                      | Some _ => [] | None => [] end)
    by (destruct (data_callback (self w)); now rewrite app_nil_r).
  destruct e as [data | data | data | data | [data | err] | cb |];
    cbn [step decodes].
  - unfold heart_rate_handler. destruct (_parse_heart_rate data); cbn [snd is_ok];
      [now apply Hn | exact Hnil].
  - unfold temperature_handler. destruct (_parse_temperature data); cbn [snd is_ok];
      [now apply Hn | exact Hnil].
  - unfold bp_handler. destruct (_parse_blood_pressure data) as [[s d] |];
      cbn [snd is_ok]; [now apply Hn | exact Hnil].
  - unfold oxygen_handler. destruct (_parse_oxygen data); cbn [snd is_ok];
      [now apply Hn | exact Hnil].
  - exact Hnil.
  - exact Hnil.
  - exact Hnil.
  - exact Hnil.
Qed.

(** With a callback set, a notification that decodes makes exactly one
    call, to the callback in place and with a dictionary that is not
    [health_data] but holds its items after the update; a notification
    that fails to decode, a battery read and the calls of the public
    interface make none. *)
Theorem callback_receives_update :
  forall (w : world) (cb : nat) (e : event),
    wf w -> allocated w -> data_callback (self w) = Some cb ->
    if decodes e
    then exists l : loc,
        calls (step w e) = calls w ++ [(cb, l)] /\
        l <> health_data (self (step w e)) /\
        heap (step w e) !! l = heap (step w e) !! health_data (self (step w e))
    else calls (step w e) = calls w.
Proof.
  intros w cb e Hwf Hal Hcb.
  destruct (decodes e) eqn:Hdec.
  - assert (Hdel : forall w1 : world,
               wf w1 -> allocated w1 -> data_callback (self w1) = Some cb ->
               calls w1 = calls w ->
               exists l : loc,
                 calls (_notify_data_update w1) = calls w ++ [(cb, l)] /\
                 l <> health_data (self (_notify_data_update w1)) /\
                 heap (_notify_data_update w1) !! l
                 = heap (_notify_data_update w1)
                     !! health_data (self (_notify_data_update w1))).
    { intros w1 H1 H2 H3 H4. rewrite <- H4. now apply notify_delivers. }
    destruct e as [data | data | data | data | [data | err] | cb' |];
      cbn [decodes] in Hdec; try discriminate; cbn [step].
    + unfold heart_rate_handler. destruct (_parse_heart_rate data); [| discriminate].
      cbn [snd].
      apply Hdel; [exact Hwf | now apply setitem_allocated | exact Hcb | reflexivity].
    + unfold temperature_handler. destruct (_parse_temperature data); [| discriminate].
      cbn [snd].
      apply Hdel; [exact Hwf | now apply setitem_allocated | exact Hcb | reflexivity].
    + unfold bp_handler. destruct (_parse_blood_pressure data) as [[s d] |];
        [| discriminate].
      cbn [snd].
      apply Hdel; [exact Hwf | now do 2 apply setitem_allocated | exact Hcb | reflexivity].
    + unfold oxygen_handler. destruct (_parse_oxygen data); [| discriminate].
      cbn [snd].
      apply Hdel; [exact Hwf | now apply setitem_allocated | exact Hcb | reflexivity].
  - rewrite step_calls, Hcb, Hdec. apply app_nil_r.
Qed.

Lemma callback_receives_update_witness :
  exists l : loc,
    calls (step (set_data_callback 7 __init__) (HeartRate [x00; x64]))
    = calls (set_data_callback 7 __init__) ++ [(7%nat, l)] /\
    l <> health_data (self (step (set_data_callback 7 __init__) (HeartRate [x00; x64]))) /\
    heap (step (set_data_callback 7 __init__) (HeartRate [x00; x64])) !! l
    = heap (step (set_data_callback 7 __init__) (HeartRate [x00; x64]))
        !! health_data (self (step (set_data_callback 7 __init__) (HeartRate [x00; x64]))).
Proof.
  apply (callback_receives_update (set_data_callback 7 __init__) 7%nat
           (HeartRate [x00; x64])).
  - unfold wf. simpl. lia.
  - unfold allocated. vm_compute. eexists. reflexivity.
  - reflexivity.
Defined.

(** Once a callback is set, the number of calls made over a run is the
    number of notifications in it that decode; while none is set, no call
    is made. *)
Theorem callback_once_per_decode :
  (forall (evs : list event) (w : world),
      is_Some (data_callback (self w)) ->
      length (calls (run evs w))
      = (length (calls w) + length (List.filter decodes evs))%nat) /\
  (forall (evs : list event) (w : world),
      data_callback (self w) = None ->
      forallb (fun e => negb (is_set_callback e)) evs = true ->
      calls (run evs w) = calls w).
Proof.
  split.
  - intros evs. induction evs as [| e evs IH]; intros w Hcb; [cbn; lia |].
    cbn [run fold_left List.filter]. fold (run evs (step w e)).
    rewrite IH by now apply step_callback_kept.
    rewrite step_calls. destruct Hcb as [cb ->].
    destruct (decodes e); rewrite length_app; cbn [length]; lia.
  - intros evs. induction evs as [| e evs IH]; intros w Hcb Hno; [reflexivity |].
    cbn [forallb] in Hno. apply andb_true_iff in Hno as [He Hno].
    apply negb_true_iff in He.
    cbn [run fold_left]. fold (run evs (step w e)).
    rewrite IH; [| now rewrite step_callback_same | exact Hno].
    rewrite step_calls, Hcb. apply app_nil_r.
Qed.

Lemma callback_once_per_decode_witness :
  length (calls (run [HeartRate [x00; x64]; HeartRate [x00]; Oxygen [x00; x61]]
                     (set_data_callback 7 __init__)))
  = (length (calls (set_data_callback 7 __init__))
     + length (List.filter decodes
                 [HeartRate [x00; x64]; HeartRate [x00]; Oxygen [x00; x61]]))%nat /\
  calls (run [HeartRate [x00; x64]; Battery (Ok [x5a])] __init__) = calls __init__.
Proof.
  destruct callback_once_per_decode as [Hset Hnone].
  split.
  - apply Hset. simpl. eexists. reflexivity.
  - apply Hnone; reflexivity.
Defined.

Lemma run_calls_single (evs : list event) (w : world) (cb : nat) :
  data_callback (self w) = Some cb ->
  forallb (fun e => negb (is_set_callback e)) evs = true ->
  exists new : list (nat * loc),
    calls (run evs w) = calls w ++ new /\ Forall (fun c => fst c = cb) new.
Proof.
  revert w. induction evs as [| e evs IH]; intros w Hcb Hno.
  - exists []. split; [now rewrite app_nil_r | constructor].
  - cbn [forallb] in Hno. apply andb_true_iff in Hno as [He Hno].
    apply negb_true_iff in He.
    cbn [run fold_left]. fold (run evs (step w e)).
    destruct (IH (step w e)) as (new & Hnew & Hall);
      [now rewrite step_callback_same | exact Hno |].
    rewrite Hnew, step_calls, Hcb.
    eexists. split; [now rewrite <- app_assoc |].
    apply Forall_app. split; [| exact Hall].
    destruct (decodes e); repeat constructor.
Qed.

(** There is one observer: after [set_data_callback], every call that
    follows goes to the callback just set, until it is replaced; a callback
    set before receives nothing more. *)
Theorem callback_replaced :
  forall (evs : list event) (w : world) (cb : nat),
    forallb (fun e => negb (is_set_callback e)) evs = true ->
    exists new : list (nat * loc),
      calls (run evs (set_data_callback cb w)) = calls w ++ new /\
      Forall (fun c => fst c = cb) new.
Proof.
  intros evs w cb Hno.
  exact (run_calls_single evs (set_data_callback cb w) cb eq_refl Hno).
Qed.

Lemma callback_replaced_witness :
  exists new : list (nat * loc),
    calls (run [HeartRate [x00; x64]; Oxygen [x00; x61]]
               (set_data_callback 9 (set_data_callback 7 __init__)))
    = calls (set_data_callback 7 __init__) ++ new /\
    Forall (fun c => fst c = 9%nat) new.
Proof.
  apply (callback_replaced [HeartRate [x00; x64]; Oxygen [x00; x61]]
           (set_data_callback 7 __init__) 9%nat).
  reflexivity.
Defined.

Lemma read_battery_is_step (r : result bytes) (w : world) :
  _read_battery r w = step w (Battery r).
Proof. reflexivity. Qed.

Lemma field_read_battery (data : bytes) (w : world) (k : string) :
  allocated w ->
  field k (_read_battery (Ok data) w)
  = if decide ("battery_level"%string = k)
    then Some (Some (PyInt (from_bytes_little data)))
    else field k w.
Proof. intros Hal. unfold _read_battery. now rewrite field_setitem. Qed.

(** A battery read stores the little-endian value of all the bytes read
    (0 for an empty read, and not limited to one byte or to 100), changes
    no other key and calls no callback; a failed read changes nothing. *)
Theorem read_battery_effect :
  forall w : world,
    allocated w ->
    (forall e : exn, _read_battery (Raise e) w = w) /\
    (forall data : bytes,
        field "battery_level" (_read_battery (Ok data) w)
        = Some (Some (PyInt (from_bytes_little data))) /\
        0 <= from_bytes_little data < 256 ^ Z.of_nat (length data) /\
        (forall k : string,
            k <> "battery_level"%string ->
            field k (_read_battery (Ok data) w) = field k w) /\
        calls (_read_battery (Ok data) w) = calls w).
Proof.
  intros w Hal. split; [reflexivity |].
  intros data. split; [| split; [| split]].
  - rewrite field_read_battery by exact Hal. now case_decide.
  - apply from_bytes_little_range.
  - intros k Hk. rewrite field_read_battery by exact Hal.
    case_decide; [congruence | reflexivity].
  - reflexivity.
Qed.

Lemma read_battery_effect_witness :
  field "battery_level" (_read_battery (Ok [x5a; x01]) __init__)
  = Some (Some (PyInt (from_bytes_little [x5a; x01]))) /\
  field "heart_rate" (_read_battery (Ok [x5a; x01]) __init__)
  = field "heart_rate" __init__.
Proof.
  destruct (read_battery_effect __init__) as [_ H].
  - unfold allocated. vm_compute. eexists. reflexivity.
  - destruct (H [x5a; x01]) as (Hset & _ & Hframe & _).
    split; [exact Hset | apply Hframe; discriminate].
Defined.

(** [get_current_data] only reads: two calls in a row return two different
    dictionaries with the same items, and leave the attributes of the
    monitor, the stored values and the callback log as they were. *)
Theorem get_current_data_reads_only :
  forall w : world,
    wf w ->
    let '(l1, w1) := get_current_data w in
    let '(l2, w2) := get_current_data w1 in
    l1 <> l2 /\
    heap w2 !! l1 = heap w2 !! l2 /\
    self w2 = self w /\ calls w2 = calls w /\
    forall k : string, field k w2 = field k w.
Proof.
  intros w Hwf. unfold wf in Hwf.
  unfold get_current_data, dict_copy. cbn [self heap next_loc calls].
  split; [lia |]. split; [| split; [reflexivity | split; [reflexivity |]]].
  - rewrite lookup_insert_eq, (lookup_insert_ne _ (S (next_loc w))) by lia.
    rewrite lookup_insert_eq, lookup_insert_ne by lia. reflexivity.
  - intros k. unfold field. cbn [self heap].
    rewrite !lookup_insert_ne by lia. reflexivity.
Qed.

Lemma get_current_data_reads_only_witness :
  let '(l1, w1) := get_current_data __init__ in
  let '(l2, w2) := get_current_data w1 in
  l1 <> l2 /\
  heap w2 !! l1 = heap w2 !! l2 /\
  self w2 = self __init__ /\ calls w2 = calls __init__ /\
  forall k : string, field k w2 = field k __init__.
Proof.
  apply (get_current_data_reads_only __init__). unfold wf. simpl. lia.
Defined.

(** ** What every reachable state satisfies *)

Lemma keyed_allocated (w : world) : keyed w -> allocated w.
Proof. intros (d & Hd & _). unfold allocated. rewrite Hd. now eexists. Qed.

Lemma setitem_keyed (k : string) (v : option num) (w : world) :
  k ∈ health_keys -> keyed w -> keyed (dict_setitem (health_data (self w)) k v w).
Proof.
  intros Hk (d & Hd & Hdom). exists (<[k := v]> d).
  rewrite setitem_self, setitem_heap_eq, Hd. split; [reflexivity |].
  rewrite dom_insert_L, Hdom.
  now apply subseteq_union_1_L, singleton_subseteq_l.
Qed.

Lemma notify_keyed (w : world) : wf w -> keyed w -> keyed (_notify_data_update w).
Proof.
  unfold wf. intros Hwf (d & Hd & Hdom). exists d.
  rewrite notify_self, notify_heap by exact Hwf. now split.
Qed.

Lemma step_keyed (w : world) (e : event) : wf w -> keyed w -> keyed (step w e).
Proof.
  intros Hwf Hk.
  assert (Hin : forall k, In k ["heart_rate"; "temperature"; "blood_pressure_systolic";
                                "blood_pressure_diastolic"; "oxygen_saturation";
                                "battery_level"]%string -> k ∈ health_keys).
  { intros k Hk'. unfold health_keys. apply elem_of_list_to_set.
    now apply list_elem_of_In. }
  destruct e as [data | data | data | data | [data | err] | cb |]; cbn [step];
    try exact Hk.
  - unfold heart_rate_handler. destruct (_parse_heart_rate data); cbn [snd];
      [| exact Hk].
    apply notify_keyed; [exact Hwf |]. apply setitem_keyed; [| exact Hk].
    apply Hin. simpl. tauto.
  - unfold temperature_handler. destruct (_parse_temperature data); cbn [snd];
      [| exact Hk].
    apply notify_keyed; [exact Hwf |]. apply setitem_keyed; [| exact Hk].
    apply Hin. simpl. tauto.
  - unfold bp_handler. destruct (_parse_blood_pressure data) as [[s d] |];
      cbn [snd]; [| exact Hk].
    apply notify_keyed; [exact Hwf |].
    apply (setitem_keyed "blood_pressure_diastolic"); [apply Hin; simpl; tauto |].
    apply setitem_keyed; [apply Hin; simpl; tauto | exact Hk].
  - unfold oxygen_handler. destruct (_parse_oxygen data); cbn [snd];
      [| exact Hk].
    apply notify_keyed; [exact Hwf |]. apply setitem_keyed; [| exact Hk].
    apply Hin. simpl. tauto.
  - apply setitem_keyed; [| exact Hk]. apply Hin. simpl. tauto.
  - destruct Hk as (d & Hd & Hdom). exists d. split; [| exact Hdom].
    unfold get_current_data. cbn [snd]. rewrite copy_heap_old; [exact Hd | exact Hwf].
Qed.

Lemma decoded_heart_rate_range (e : event) (v : num) :
  decoded_heart_rate e = Some v -> exists n, v = PyInt n /\ 0 <= n <= 65535.
Proof.
  destruct e as [data | | | | | |]; try discriminate. cbn.
  destruct (_parse_heart_rate data) as [n |] eqn:Hp; [| discriminate].
  intros [= <-]. exists n. split; [reflexivity | now apply (parse_heart_rate_range data)].
Qed.

Lemma decoded_oxygen_range (e : event) (v : num) :
  decoded_oxygen e = Some v -> exists n, v = PyInt n /\ 0 <= n <= 255.
Proof.
  destruct e as [| | | data | | |]; try discriminate. cbn.
  destruct (_parse_oxygen data) as [n |] eqn:Hp; [| discriminate].
  intros [= <-]. exists n. split; [reflexivity | now apply (parse_oxygen_range data)].
Qed.

Lemma decoded_battery_range (e : event) (v : num) :
  decoded_battery e = Some v -> exists n, v = PyInt n /\ 0 <= n.
Proof.
  destruct e as [| | | | [data | err] | |]; try discriminate. cbn.
  intros [= <-]. eexists. split; [reflexivity | apply from_bytes_little_range].
Qed.

Lemma decoded_pressure_pair (e : event) :
  (decoded_systolic e = None /\ decoded_diastolic e = None) \/
  exists s d, decoded_systolic e = Some (PyInt s) /\
              decoded_diastolic e = Some (PyInt d) /\
              Z.abs s <= 20480000000 /\ Z.abs d <= 20480000000.
Proof.
  destruct e as [| | data | | | |]; try (left; split; reflexivity). cbn.
  destruct (_parse_blood_pressure data) as [[s d] |] eqn:Hp; [| left; now split].
  destruct (parse_blood_pressure_range data s d Hp) as [Hs Hd].
  right. now exists s, d.
Qed.

Ltac in_list := repeat first [apply list_elem_of_here | apply list_elem_of_further].

Lemma step_readings_ok (w : world) (e : event) :
  readings_ok w -> readings_ok (step w e).
Proof.
  intros (Hwf & Hkeyed & Hhr & Hox & Hbat & Hbp & Htemp).
  pose proof (keyed_allocated w Hkeyed) as Hal.
  split; [now apply step_wf |]. split; [now apply step_keyed |].
  rewrite (step_field w e "heart_rate" decoded_heart_rate ltac:(in_list) Hwf Hal).
  rewrite (step_field w e "oxygen_saturation" decoded_oxygen ltac:(in_list) Hwf Hal).
  rewrite (step_field w e "battery_level" decoded_battery ltac:(in_list) Hwf Hal).
  rewrite (step_field w e "blood_pressure_systolic" decoded_systolic
             ltac:(in_list) Hwf Hal).
  rewrite (step_field w e "blood_pressure_diastolic" decoded_diastolic
             ltac:(in_list) Hwf Hal).
  rewrite (step_field w e "temperature" decoded_temperature ltac:(in_list) Hwf Hal).
  split; [| split; [| split; [| split]]].
  - destruct (decoded_heart_rate e) as [v |] eqn:Hv; [| exact Hhr].
    destruct (decoded_heart_rate_range e v Hv) as (n & -> & Hn).
    right. now exists n.
  - destruct (decoded_oxygen e) as [v |] eqn:Hv; [| exact Hox].
    destruct (decoded_oxygen_range e v Hv) as (n & -> & Hn).
    right. now exists n.
  - destruct (decoded_battery e) as [v |] eqn:Hv; [| exact Hbat].
    destruct (decoded_battery_range e v Hv) as (n & -> & Hn).
    right. now exists n.
  - destruct (decoded_pressure_pair e) as [[-> ->] | (s & d & -> & -> & Hs & Hd)];
      [exact Hbp |].
    right. now exists s, d.
  - destruct (decoded_temperature e); [now eexists | exact Htemp].
Qed.

(** The invariant looks at the monitor through [health_data] only. *)
Lemma with_self_readings_ok (m : monitor) (w : world) :
  health_data m = health_data (self w) ->
  readings_ok w -> readings_ok (with_self m w).
Proof.
  unfold readings_ok, keyed, wf, field. cbn [with_self self heap next_loc].
  now intros ->.
Qed.

Lemma monitor_service_world (w : world) (registered : list string)
      (service : gatt_service) :
  fst (monitor_service (w, registered) service) = w \/
  fst (monitor_service (w, registered) service)
  = step w (Battery (read_reply service)).
Proof.
  unfold monitor_service.
  repeat (destruct (String.eqb _ _); [left; reflexivity |]).
  destruct (String.eqb _ _); [right | left]; reflexivity.
Qed.

(** What the service loop does to the state is a run of battery reads. *)
Lemma monitor_loop_world (l : list gatt_service) (w : world)
      (registered : list string) :
  exists reads : list (result bytes),
    fst (fold_left monitor_service l (w, registered))
    = run (map Battery reads) w.
Proof.
  revert w registered. induction l as [| s l IH]; intros w registered.
  - now exists [].
  - cbn [fold_left].
    destruct (monitor_service (w, registered) s) as [w1 r1] eqn:Hs.
    pose proof (monitor_service_world w registered s) as Hw.
    rewrite Hs in Hw. cbn [fst] in Hw.
    destruct (IH w1 r1) as (reads & Hreads). rewrite Hreads.
    destruct Hw as [-> | ->].
    + now exists reads.
    + now exists (read_reply s :: reads).
Qed.

Lemma run_readings_ok (evs : list event) (w : world) :
  readings_ok w -> readings_ok (run evs w).
Proof.
  revert w. induction evs as [| e evs IH]; intros w Hw; [exact Hw |].
  apply IH, step_readings_ok, Hw.
Qed.

Lemma start_monitoring_world (svcs : result (list gatt_service)) (w : world) :
  exists reads : list (result bytes),
    snd (fst (start_monitoring svcs w)) = run (map Battery reads) w.
Proof.
  unfold start_monitoring.
  destruct (negb _ || negb _); [now exists [] |].
  destruct svcs as [l | e]; [| now exists []].
  destruct (monitor_loop_world l w []) as (reads & Hreads).
  destruct (fold_left monitor_service l (w, [])) as [w' r'].
  now exists reads.
Qed.

(** The state [connect] leaves: attribute assignments around a run of
    battery reads. *)
Lemma connect_world (a : adapter) (address : string) (w : world) :
  exists (reads : list (result bytes)) (m m' : monitor),
    health_data m = health_data (self w) /\
    health_data m' = health_data (self w) /\
    data_callback m = data_callback (self w) /\
    snd (fst (connect a address w))
    = with_self m' (run (map Battery reads) (with_self m w)).
Proof.
  unfold connect.
  destruct (new_client a).
  2: { exists [], (self w), (self (set_connected false w)).
       repeat split. }
  destruct (link_up a).
  2: { exists [], (self w), (self (set_connected false (set_client (Some address) w))).
       repeat split. }
  set (w0 := match read_name a with
             | Ok n => set_device_name (Some n) _
             | Raise _ => set_device_name (Some "Unknown Device"%string) _
             end).
  assert (Hw0 : w0 = with_self (self w0) w /\
                health_data (self w0) = health_data (self w) /\
                data_callback (self w0) = data_callback (self w)).
  { subst w0. destruct (read_name a); repeat split. }
  destruct Hw0 as (Hw0 & Hhd & Hcb).
  destruct (start_monitoring_world (services a) w0) as (reads & Hreads).
  destruct (start_monitoring (services a) w0) as [[[[] | e] w1] regs];
    cbn [fst snd] in Hreads; cbn [fst snd]; subst w1.
  - exists reads, (self w0), (self (run (map Battery reads) w0)).
    split; [exact Hhd |]. split; [now rewrite run_health_data |].
    split; [exact Hcb |].
    rewrite <- Hw0. now destruct (run (map Battery reads) w0).
  - exists reads, (self w0),
      (self (set_connected false (run (map Battery reads) w0))).
    split; [exact Hhd |].
    split; [cbn; now rewrite run_health_data |].
    split; [exact Hcb |].
    rewrite <- Hw0. now destruct (run (map Battery reads) w0).
Qed.

Lemma op_step_readings_ok (w : world) (o : op) :
  readings_ok w -> readings_ok (op_step w o).
Proof.
  intros Hw. destruct o as [a address | link | e]; cbn [op_step].
  - destruct (connect_world a address w) as (reads & m & m' & Hm & Hm' & _ & ->).
    apply with_self_readings_ok.
    + rewrite run_health_data. cbn [with_self self]. congruence.
    + apply run_readings_ok. now apply with_self_readings_ok.
  - unfold disconnect. destruct (_ && _); [| exact Hw].
    destruct link; cbn [snd]; [| exact Hw].
    now apply with_self_readings_ok.
  - now apply step_readings_ok.
Qed.

Lemma session_readings_ok (ops : list op) (w : world) :
  readings_ok w -> readings_ok (session ops w).
Proof.
  revert w. induction ops as [| o ops IH]; intros w Hw; [exact Hw |].
  apply IH, op_step_readings_ok, Hw.
Qed.

Lemma init_readings_ok : readings_ok __init__.
Proof.
  split; [exact init_wf |].
  split.
  { eexists. split; [apply lookup_insert_eq |].
    unfold initial_health_data, health_keys.
    rewrite !dom_insert_L, dom_empty_L. cbn. set_solver. }
  unfold unsigned_reading, natural_reading, paired_reading.
  repeat split; try (left; vm_compute; tauto).
  vm_compute. now eexists.
Qed.

Lemma snapshot_is_health_data (w : world) (d : pydict) :
  heap w !! health_data (self w) = Some d -> snapshot w = d.
Proof.
  intros Hd. unfold snapshot, get_current_data, dict_copy. cbn [heap].
  now rewrite lookup_insert_eq, Hd.
Qed.

(** Whatever the program does -- connecting, disconnecting, receiving
    notifications, reading the battery, setting callbacks -- the dictionary
    [get_current_data()] returns has exactly the six keys of [__init__]:
    no key is ever added or removed. *)
Theorem snapshot_keys_fixed :
  forall ops : list op, dom (snapshot (session ops __init__)) = health_keys.
Proof.
  intros ops.
  destruct (session_readings_ok ops __init__ init_readings_ok)
    as (_ & (d & Hd & Hdom) & _).
  now rewrite (snapshot_is_health_data _ d Hd).
Qed.

(** In every reachable state the stored heart rate is [None] or an [int]
    in 0..65535, the oxygen saturation [None] or an [int] in 0..255, the
    battery level [None] or a natural number, the two blood-pressure values
    are both [None] or both [int]s of magnitude at most 2048 * 10^7, and
    the temperature key is present. *)
Theorem snapshot_values_typed :
  forall ops : list op,
    let d := snapshot (session ops __init__) in
    unsigned_reading 65535 (d !! "heart_rate"%string) /\
    unsigned_reading 255 (d !! "oxygen_saturation"%string) /\
    natural_reading (d !! "battery_level"%string) /\
    paired_reading 20480000000 (d !! "blood_pressure_systolic"%string)
                   (d !! "blood_pressure_diastolic"%string) /\
    is_Some (d !! "temperature"%string).
Proof.
  intros ops d. subst d.
  destruct (session_readings_ok ops __init__ init_readings_ok)
    as (_ & Hkeyed & Hrest).
  rewrite !snapshot_lookup by now apply keyed_allocated.
  exact Hrest.
Qed.

(** * Connecting *)

Lemma run_battery_self (reads : list (result bytes)) (w : world) :
  self (run (map Battery reads) w) = self w.
Proof.
  revert w. induction reads as [| r reads IH]; intros w; [reflexivity |].
  cbn [map run fold_left]. fold (run (map Battery reads) (step w (Battery r))).
  rewrite IH. now destruct r.
Qed.

Lemma run_battery_frame (reads : list (result bytes)) (w : world) (k : string) :
  allocated w -> k <> "battery_level"%string ->
  field k (run (map Battery reads) w) = field k w /\
  calls (run (map Battery reads) w) = calls w.
Proof.
  revert w. induction reads as [| r reads IH]; intros w Hal Hk; [now split |].
  cbn [map run fold_left]. fold (run (map Battery reads) (step w (Battery r))).
  destruct r as [data | e]; cbn [step].
  - destruct (IH (_read_battery (Ok data) w)) as [-> ->];
      [now apply setitem_allocated | exact Hk |].
    rewrite field_read_battery by exact Hal.
    split; [case_decide; [congruence | reflexivity] | reflexivity].
  - now apply IH.
Qed.

Lemma monitor_loop_self (l : list gatt_service) (w : world) (registered : list string) :
  self (fst (fold_left monitor_service l (w, registered))) = self w.
Proof.
  destruct (monitor_loop_world l w registered) as (reads & ->).
  apply run_battery_self.
Qed.

(** A connected flag left by [connect] comes with the client of the
    call. *)
Lemma connect_link (a : adapter) (address : string) (w : world) :
  is_connected (self (snd (fst (connect a address w)))) = true ->
  client (self (snd (fst (connect a address w)))) = Some address.
Proof.
  unfold connect.
  destruct (new_client a) as [[] | e0]; [| discriminate].
  destruct (link_up a) as [[] | e1]; [| discriminate].
  set (w0 := match read_name a with
             | Ok n => set_device_name (Some n) _
             | Raise _ => set_device_name (Some "Unknown Device"%string) _
             end).
  assert (Hclient : client (self w0) = Some address)
    by (subst w0; now destruct (read_name a)).
  destruct (start_monitoring_world (services a) w0) as (reads & Hreads).
  destruct (start_monitoring (services a) w0) as [[[[] | e] w1] regs];
    cbn [fst snd] in Hreads |- *; subst w1; [| discriminate].
  intros _. now rewrite run_battery_self.
Qed.

(** [connect] returns the connected flag it leaves: [True] exactly when
    the client could be built, the link came up and the services could be
    listed, and then the client and the address are those of the call and
    the name is the one read, or ["Unknown Device"] when the read or its
    decoding failed.  When it returns [False] no handler is registered and
    a following [disconnect] does not touch the link, also when the link
    had come up. *)
Theorem connect_outcome :
  forall (a : adapter) (address : string) (w : world),
    let '(ok, w', registered) := connect a address w in
    is_connected (self w') = ok /\
    ok = is_ok (new_client a) && is_ok (link_up a) && is_ok (services a) /\
    (ok = true ->
     client (self w') = Some address /\
     device_address (self w') = Some address /\
     device_name (self w')
     = Some (match read_name a with Ok n => n | Raise _ => "Unknown Device"%string end)) /\
    (ok = false ->
     registered = [] /\ forall link : result unit, disconnect link w' = (Ok (), w')).
Proof.
  intros a address w.
  unfold connect.
  destruct (new_client a) as [[] | e0]; cbn [is_ok andb].
  2: { repeat split; try discriminate; intros link; unfold disconnect;
       cbn [set_connected with_self self is_connected]; now rewrite andb_false_r. }
  destruct (link_up a) as [[] | e1]; cbn [is_ok andb].
  2: { repeat split; try discriminate; intros link; unfold disconnect;
       cbn [set_connected set_client with_self self is_connected];
       now rewrite andb_false_r. }
  set (w0 := match read_name a with
             | Ok n => set_device_name (Some n) _
             | Raise _ => set_device_name (Some "Unknown Device"%string) _
             end).
  assert (Hself : self w0
                  = Monitor (Some address) (Some address)
                      (Some (match read_name a with
                             | Ok n => n
                             | Raise _ => "Unknown Device"%string
                             end))
                      true (data_callback (self w)) (health_data (self w))).
  { subst w0. now destruct (read_name a). }
  unfold start_monitoring. rewrite Hself. cbn [client is_connected].
  rewrite (bool_decide_true (is_Some (Some address))) by now eexists.
  cbn [negb orb].
  destruct (services a) as [l | e2]; cbn [is_ok].
  - pose proof (monitor_loop_self l w0 []) as Hl.
    destruct (fold_left monitor_service l (w0, [])) as [w' registered].
    cbn [fst] in Hl. rewrite Hl, Hself. cbn [is_connected client device_address device_name].
    repeat split; discriminate.
  - repeat split; try discriminate; intros link; unfold disconnect;
      cbn [set_connected with_self self is_connected]; now rewrite andb_false_r.
Qed.


Lemma connect_outcome_witness :
  client (self (snd (fst (connect sample_adapter "C0:FF:EE:00:00:01" __init__))))
  = Some "C0:FF:EE:00:00:01"%string /\
  device_name (self (snd (fst (connect sample_adapter "C0:FF:EE:00:00:01" __init__))))
  = Some "Polar H10"%string.
Proof.
  pose proof (connect_outcome sample_adapter "C0:FF:EE:00:00:01" __init__) as H.
  destruct (connect sample_adapter "C0:FF:EE:00:00:01" __init__) as [[ok w'] regs] eqn:Hc.
  destruct H as (_ & Hok & Htrue & _).
  destruct (Htrue Hok) as (Hclient & _ & Hname).
  cbn [fst snd]. split; [exact Hclient | exact Hname].
Defined.

Lemma step_link (w : world) (e : event) :
  client (self (step w e)) = client (self w) /\
  is_connected (self (step w e)) = is_connected (self w).
Proof.
  destruct e as [data | data | data | data | [data | err] | cb |]; cbn [step];
    try (split; reflexivity).
  - unfold heart_rate_handler. destruct (_parse_heart_rate data); cbn [snd];
      [now rewrite notify_self | now split].
  - unfold temperature_handler. destruct (_parse_temperature data); cbn [snd];
      [now rewrite notify_self | now split].
  - unfold bp_handler. destruct (_parse_blood_pressure data) as [[s d] |];
      cbn [snd]; [now rewrite notify_self | now split].
  - unfold oxygen_handler. destruct (_parse_oxygen data); cbn [snd];
      [now rewrite notify_self | now split].
Qed.

Lemma op_step_connected_client (w : world) (o : op) :
  (is_connected (self w) = true -> is_Some (client (self w))) ->
  is_connected (self (op_step w o)) = true -> is_Some (client (self (op_step w o))).
Proof.
  intros Hinv. destruct o as [a address | link | e]; cbn [op_step].
  - intros Hc. rewrite (connect_link a address w Hc). now eexists.
  - unfold disconnect.
    destruct (bool_decide (is_Some (client (self w)))) eqn:Hcl;
      destruct (is_connected (self w)) eqn:Hc; cbn [andb snd];
      try (intros; congruence).
    + destruct link; cbn [snd]; [discriminate |].
      intros _. exact (Hinv eq_refl).
    + intros _. exact (Hinv eq_refl).
  - destruct (step_link w e) as [-> ->]. exact Hinv.
Qed.

(** In every state a program can reach, a monitor that says it is
    connected has a client: [disconnect] never meets a connected flag
    without one. *)
Theorem connected_has_client :
  forall ops : list op,
    is_connected (self (session ops __init__)) = true ->
    is_Some (client (self (session ops __init__))).
Proof.
  intros ops.
  assert (H : forall w, (is_connected (self w) = true -> is_Some (client (self w))) ->
                        is_connected (self (session ops w)) = true ->
                        is_Some (client (self (session ops w)))).
  { induction ops as [| o ops IH]; intros w Hw; [exact Hw |].
    cbn [session fold_left]. fold (session ops (op_step w o)).
    apply IH. now apply op_step_connected_client. }
  apply H. discriminate.
Qed.

Lemma connected_has_client_witness :
  is_Some (client (self (session
     [Connect sample_adapter "C0:FF:EE:00:00:01"; Notified (HeartRate [x00; x64])]
     __init__))).
Proof.
  apply (connected_has_client
           [Connect sample_adapter "C0:FF:EE:00:00:01"; Notified (HeartRate [x00; x64])]).
  reflexivity.
Defined.

Lemma monitor_service_registered (w : world) (registered : list string)
      (service : gatt_service) :
  snd (monitor_service (w, registered) service)
  = registered ++
    match (if is_ok (notify_reply service) then wanted service else None) with
    | Some c => [c]
    | None => []
    end.
Proof.
  unfold monitor_service, wanted, measurement_of.
  change (lower HEART_RATE_SERVICE_UUID) with HEART_RATE_SERVICE_UUID.
  change (lower HEALTH_THERMOMETER_SERVICE_UUID) with HEALTH_THERMOMETER_SERVICE_UUID.
  change (lower BLOOD_PRESSURE_SERVICE_UUID) with BLOOD_PRESSURE_SERVICE_UUID.
  change (lower PULSE_OXIMETER_SERVICE_UUID) with PULSE_OXIMETER_SERVICE_UUID.
  cbn [List.find fst snd].
  unfold _monitor_heart_rate, _monitor_temperature, _monitor_blood_pressure,
    _monitor_oxygen.
  repeat match goal with
         | |- context [if String.eqb ?a ?c then _ else _] =>
             destruct (String.eqb a c)
         end;
    destruct (notify_reply service); cbn; now rewrite ?app_nil_r.
Qed.

Lemma monitor_loop_registered (l : list gatt_service) (w : world)
      (registered : list string) :
  snd (fold_left monitor_service l (w, registered))
  = registered ++
    omap (fun s => if is_ok (notify_reply s) then wanted s else None) l.
Proof.
  revert w registered. induction l as [| s l IH]; intros w registered.
  - cbn. now rewrite app_nil_r.
  - cbn [fold_left].
    pose proof (monitor_service_registered w registered s) as Hs.
    destruct (monitor_service (w, registered) s) as [w1 r1]. cbn [snd] in Hs.
    rewrite IH, Hs. cbn [omap list_omap].
    destruct (if is_ok (notify_reply s) then wanted s else None);
      now rewrite <- app_assoc.
Qed.

(** On a connected monitor [start_monitoring] asks for notifications once
    per listed service that is one of the four it knows (the uuid compared
    with letter case ignored), in the order listed; the handlers registered
    are those whose subscription succeeded, a refused subscription does not
    stop the loop, and the battery and unknown services register nothing.
    On a monitor that is not connected it does nothing; when the services
    cannot be listed the error is raised before anything is done. *)
Theorem start_monitoring_registers :
  (forall (svcs : result (list gatt_service)) (w : world),
      is_connected (self w) = false \/ client (self w) = None ->
      start_monitoring svcs w = (Ok (), w, [])) /\
  (forall (l : list gatt_service) (w : world),
      is_connected (self w) = true -> is_Some (client (self w)) ->
      fst (fst (start_monitoring (Ok l) w)) = Ok () /\
      snd (start_monitoring (Ok l) w)
      = omap (fun s => if is_ok (notify_reply s) then wanted s else None) l) /\
  (forall (e : exn) (w : world),
      is_connected (self w) = true -> is_Some (client (self w)) ->
      start_monitoring (Raise e) w = (Raise e, w, [])).
Proof.
  split; [| split].
  - intros svcs w [Hc | Hc]; unfold start_monitoring; rewrite Hc.
    + now rewrite orb_true_r.
    + reflexivity.
  - intros l w Hc Hcl. unfold start_monitoring.
    rewrite Hc, (bool_decide_true _ Hcl). cbn [negb orb].
    pose proof (monitor_loop_registered l w []) as Hr.
    destruct (fold_left monitor_service l (w, [])) as [w' r']. cbn [snd] in Hr.
    cbn [fst snd]. now split.
  - intros e w Hc Hcl. unfold start_monitoring.
    now rewrite Hc, (bool_decide_true _ Hcl).
Qed.

Lemma start_monitoring_registers_witness :
  start_monitoring (services sample_adapter) __init__ = (Ok (), __init__, []) /\
  snd (start_monitoring
         (Ok [ {| uuid := "0000180D-0000-1000-8000-00805F9B34FB";
                  notify_reply := Ok (); read_reply := Raise BleakError |};
               {| uuid := "00001809-0000-1000-8000-00805f9b34fb";
                  notify_reply := Raise BleakError; read_reply := Raise BleakError |};
               {| uuid := "00001822-0000-1000-8000-00805f9b34fb";
                  notify_reply := Ok (); read_reply := Raise BleakError |} ])
         connected_monitor)
  = [HEART_RATE_MEASUREMENT_UUID; PLX_CONTINUOUS_MEASUREMENT_UUID].
Proof.
  destruct start_monitoring_registers as (Hidle & Hreg & _).
  split.
  - apply Hidle. left. reflexivity.
  - destruct (Hreg [ {| uuid := "0000180D-0000-1000-8000-00805F9B34FB";
                        notify_reply := Ok (); read_reply := Raise BleakError |};
                     {| uuid := "00001809-0000-1000-8000-00805f9b34fb";
                        notify_reply := Raise BleakError;
                        read_reply := Raise BleakError |};
                     {| uuid := "00001822-0000-1000-8000-00805f9b34fb";
                        notify_reply := Ok (); read_reply := Raise BleakError |} ]
                   connected_monitor) as [_ Hl].
    + reflexivity.
    + simpl. eexists. reflexivity.
    + rewrite Hl. reflexivity.
Defined.

(** Neither [disconnect] nor [connect] clears what was measured:
    [disconnect] leaves every stored value and the callback log as they
    are, and [connect] can change the battery level only and calls no
    callback. *)
Theorem connection_keeps_readings :
  forall w : world,
    allocated w ->
    (forall (link : result unit) (k : string),
        field k (snd (disconnect link w)) = field k w /\
        calls (snd (disconnect link w)) = calls w) /\
    (forall (a : adapter) (address k : string),
        k <> "battery_level"%string ->
        field k (snd (fst (connect a address w))) = field k w) /\
    (forall (a : adapter) (address : string),
        calls (snd (fst (connect a address w))) = calls w).
Proof.
  intros w Hal.
  assert (Hconn : forall (a : adapter) (address k : string),
             k <> "battery_level"%string ->
             field k (snd (fst (connect a address w))) = field k w /\
             calls (snd (fst (connect a address w))) = calls w).
  { intros a address k Hk.
    destruct (connect_world a address w) as (reads & m & m' & Hm & Hm' & _ & ->).
    assert (Hal' : allocated (with_self m w)).
    { unfold allocated in *. cbn [with_self self heap]. now rewrite Hm. }
    destruct (run_battery_frame reads (with_self m w) k Hal' Hk) as [Hf Hc].
    split.
    - transitivity (field k (run (map Battery reads) (with_self m w))).
      + unfold field. cbn [with_self self heap].
        now rewrite Hm', run_health_data, <- Hm.
      + rewrite Hf. unfold field. cbn [with_self self heap]. now rewrite Hm.
    - cbn [with_self calls]. exact Hc. }
  split; [| split].
  - intros link k. unfold disconnect.
    destruct (_ && _); [| now split]. destruct link; now split.
  - intros a address k Hk. now apply Hconn.
  - intros a address.
    apply (Hconn a address "heart_rate"%string). discriminate.
Qed.

Lemma connection_keeps_readings_witness :
  field "heart_rate"
        (snd (fst (connect sample_adapter "C0:FF:EE:00:00:01"
                           (step __init__ (HeartRate [x00; x64])))))
  = field "heart_rate" (step __init__ (HeartRate [x00; x64])).
Proof.
  destruct (connection_keeps_readings (step __init__ (HeartRate [x00; x64])))
    as (_ & Hconn & _).
  - unfold allocated. vm_compute. eexists. reflexivity.
  - apply Hconn. discriminate.
Defined.

(** * Further properties of the scan *)

Lemma scan_devices_filter (devices : list BLEDevice) :
  scan_devices devices = map entry_of (List.filter is_health_device devices).
Proof. unfold scan_devices. now rewrite scan_loop. Qed.

(** Devices are judged one by one: the result for a list is the result
    for its first part followed by the result for the rest, so a device
    that was discovered twice is reported twice, and nothing is reported
    that was not discovered. *)
Theorem scan_devices_app :
  (forall devices1 devices2 : list BLEDevice,
      scan_devices (devices1 ++ devices2)
      = scan_devices devices1 ++ scan_devices devices2) /\
  (forall devices : list BLEDevice,
      (length (scan_devices devices) <= length devices)%nat).
Proof.
  split.
  - intros devices1 devices2.
    now rewrite !scan_devices_filter, List.filter_app, map_app.
  - intros devices. rewrite scan_devices_filter, length_map.
    apply List.filter_length_le.
Qed.

(** Every reported entry is that of a discovered device, with its address
    and signal strength and with its own name, which is not empty: the
    ['Unknown'] fallback is never used. *)
Theorem scan_devices_entries :
  forall (devices : list BLEDevice) (entry : health_device),
    In entry (scan_devices devices) ->
    exists device : BLEDevice,
      In device devices /\
      name device = Some (hd_name entry) /\
      hd_name entry <> EmptyString /\
      hd_address entry = address device /\
      hd_rssi entry = rssi device.
Proof.
  intros devices entry Hin.
  rewrite scan_devices_filter in Hin.
  apply in_map_iff in Hin as (device & <- & Hdev).
  apply List.filter_In in Hdev as [Hdev Hhealth].
  exists device. split; [exact Hdev |].
  unfold is_health_device in Hhealth. unfold entry_of. cbn [hd_name hd_address hd_rssi].
  destruct (name device) as [n |]; [| discriminate].
  apply andb_true_iff in Hhealth as [Hne _]. apply negb_true_iff in Hne.
  cbn [default]. repeat split. now apply String.eqb_neq.
Qed.

Lemma scan_devices_entries_witness :
  exists device : BLEDevice,
    In device [ {| address := "01"; name := Some "Polar H10"%string; rssi := -60 |};
                {| address := "02"; name := None; rssi := -61 |} ] /\
    name device = Some "Polar H10"%string /\
    "Polar H10"%string <> EmptyString /\
    "01"%string = address device /\
    -60 = rssi device.
Proof.
  apply (scan_devices_entries
           [ {| address := "01"; name := Some "Polar H10"%string; rssi := -60 |};
             {| address := "02"; name := None; rssi := -61 |} ]
           {| hd_address := "01"; hd_name := "Polar H10"; hd_rssi := -60 |}).
  simpl. left. reflexivity.
Defined.

(** * Critical vitals *)

Lemma band_check (v : option num) (lo hi : Z) :
  truthy_value v && (lt_lit v lo || gt_lit v hi) = false
  <-> unremarkable v (inject_Z lo) (inject_Z hi).
Proof.
  destruct v as [[n | x] |]; cbn [truthy_value lt_lit gt_lit unremarkable value].
  - rewrite andb_false_iff, negb_false_iff, orb_false_iff, Z.eqb_eq, !Z.ltb_ge.
    rewrite <- !Zle_Qle. split.
    + intros [-> | H]; [left; reflexivity | right; exact H].
    + intros [H | H]; [left | right; exact H].
      unfold Qeq in H. cbn in H. lia.
  - rewrite andb_false_iff, negb_false_iff, orb_false_iff, !negb_false_iff.
    now rewrite Qeq_bool_iff, !Qle_bool_iff.
  - tauto.
Qed.

Lemma floor_check (v : option num) (lo : Z) :
  truthy_value v && lt_lit v lo = false <-> unremarkable_above v (inject_Z lo).
Proof.
  destruct v as [[n | x] |]; cbn [truthy_value lt_lit unremarkable_above value].
  - rewrite andb_false_iff, negb_false_iff, Z.eqb_eq, Z.ltb_ge.
    rewrite <- Zle_Qle. split.
    + intros [-> | H]; [left; reflexivity | right; exact H].
    + intros [H | H]; [left | right; exact H].
      unfold Qeq in H. cbn in H. lia.
  - rewrite andb_false_iff, !negb_false_iff.
    now rewrite Qeq_bool_iff, Qle_bool_iff.
  - tauto.
Qed.

(** A record is not critical exactly when each of the five vitals is
    missing, [None] or zero, or lies within its band: heart rate 40..140,
    systolic 80..180, diastolic 50..110, oxygen at least 90, temperature
    95..103.  A reading of zero is never critical, and no other key of the
    record is looked at. *)
Theorem check_critical_vitals_spec :
  forall health_data : pydict,
    check_critical_vitals health_data = false <->
    unremarkable (dict_get health_data "heart_rate") 40 140 /\
    unremarkable (dict_get health_data "blood_pressure_systolic") 80 180 /\
    unremarkable (dict_get health_data "blood_pressure_diastolic") 50 110 /\
    unremarkable_above (dict_get health_data "oxygen_saturation") 90 /\
    unremarkable (dict_get health_data "temperature") 95 103.
Proof.
  intros health_data. unfold check_critical_vitals.
  rewrite <- (band_check (dict_get health_data "heart_rate") 40 140).
  rewrite <- (band_check (dict_get health_data "blood_pressure_systolic") 80 180).
  rewrite <- (band_check (dict_get health_data "blood_pressure_diastolic") 50 110).
  rewrite <- (floor_check (dict_get health_data "oxygen_saturation") 90).
  rewrite <- (band_check (dict_get health_data "temperature") 95 103).
  destruct (truthy_value (dict_get health_data "heart_rate") && _);
    [split; [discriminate | intros (H & _); discriminate] |].
  destruct (truthy_value (dict_get health_data "blood_pressure_systolic") && _);
    [split; [discriminate | intros (_ & H & _); discriminate] |].
  destruct (truthy_value (dict_get health_data "blood_pressure_diastolic") && _);
    [split; [discriminate | intros (_ & _ & H & _); discriminate] |].
  destruct (truthy_value (dict_get health_data "oxygen_saturation") && _);
    [split; [discriminate | intros (_ & _ & _ & H & _); discriminate] |].
  destruct (truthy_value (dict_get health_data "temperature") && _);
    [split; [discriminate | intros (_ & _ & _ & _ & H); discriminate] |].
  tauto.
Qed.

Lemma check_critical_vitals_spec_witness :
  check_critical_vitals
    (<["oxygen_saturation"%string := Some (PyInt 0)]>
       (<["heart_rate"%string := Some (PyInt 72)]> ∅)) = false.
Proof.
  apply (check_critical_vitals_spec
           (<["oxygen_saturation"%string := Some (PyInt 0)]>
              (<["heart_rate"%string := Some (PyInt 72)]> ∅))).
  vm_compute. repeat split; try tauto; try (right; split; discriminate).
Defined.
